(** * DatabasePlanner (drawdb-server): versioned diagrams and their sharing

    A shallow embedding of [drawdb-server/src/controllers/diagram-controller.ts]
    together with the two tables it works on (the [Diagram] model, which
    the sources hold in [models/Template.ts], and [models/DiagramShare.ts]),
    and the properties of the optimistic versioning protocol and of the
    permission checks.

    Modelling conventions.
    - A table with a primary key is a finite map from the key to the row
      ([diagrams]); the share table, whose uniqueness is a property to be
      established, is a plain list of rows.
    - A handler is a function from the store and the request to the new store
      and the HTTP response; [new Date()] and the UUID produced by the
      [UUIDV4] column default are arguments.
    - Requests are handled one at a time: a transaction that is rolled back
      is the unchanged store, a committed one is the updated store.
    - What Sequelize and PostgreSQL decide is not code of the repository:
      whether a row may be written (the validation of the instance, the
      column types and lengths, NOT NULL, the foreign keys, the syntax of a
      UUID), what a write through a dotted key makes of a JSON value, and
      the order in which a query without ORDER BY returns its rows. The
      handlers take these from a [Database], and a write that is refused
      ends in the [catch] block: 500, nothing written.
    - Rows carry the columns the controller reads or writes. The bookkeeping
      columns [createdAt]/[updatedAt] and the joined display attributes of
      responses ([owner], [lastModifier], [sharedWith]) are not represented.
    - A body attribute that has a field of its own in [Values] holds a value
      of the column's type; every other key of the body, with its JSON text,
      is an entry of [v_content]. *)

From Stdlib Require Import Strings.Ascii.
From stdpp Require Import gmap strings list fin_maps sorting.

Local Open Scope string_scope.
Local Open Scope Z_scope.

(** ** Data model *)

(** [models/DiagramShare.ts]: [enum PermissionLevel]. *)
Inductive PermissionLevel := VIEWER | EDITOR | OWNER.

#[global] Instance PermissionLevel_eq_dec : EqDecision PermissionLevel.
Proof. solve_decision. Defined.

(** A row of [diagram_shares]. *)
Record DiagramShare := mkDiagramShare {
  diagramId : string;
  sharedWithUserId : string;
  sharedByUserId : string;
  permissionLevel : PermissionLevel
}.

#[global] Instance DiagramShare_eq_dec : EqDecision DiagramShare.
Proof. solve_decision. Defined.

(** A row of [diagrams]; its primary key [id] is the key of the table.
    [content] holds the JSONB/FLOAT columns by attribute name, each value
    being the serialised JSON text. *)
Record Diagram := mkDiagram {
  userId : string;
  name : string;
  database : string;
  content : gmap string string;
  gistId : option string;
  loadedFromGistId : option string;
  lastModified : Z;
  lastModifiedBy : option string;
  version : Z;
  isShared : bool
}.

(** The attribute names stored in [content]. *)
Definition jsonAttributes : list string :=
  ["tables"; "references"; "notes"; "areas"; "todos"; "enums"; "types";
   "pan"; "zoom"].

(** Column defaults of [Diagram.init] for the [content] attributes
    ([enums] and [types] default to null). *)
Definition contentDefaults : gmap string string :=
  list_to_map
    [("tables", "[]"); ("references", "[]"); ("notes", "[]");
     ("areas", "[]"); ("todos", "[]"); ("enums", "null"); ("types", "null");
     ("pan", "{x:0,y:0}"); ("zoom", "1")].

(** The attributes of type JSON or JSONB ([zoom] is a FLOAT): the ones a
    dotted key can write into. *)
Definition jsonColumns : list string :=
  ["tables"; "references"; "notes"; "areas"; "todos"; "enums"; "types";
   "pan"].

(** A JavaScript object holding diagram attributes, each one present or
    not: the request body without [expectedVersion], [diagram.toJSON()],
    and the argument of [Diagram.create] / [diagram.update]. A nullable
    attribute that is present holds [None] for null; an object that holds
    null, or a value of another type, for one of the other attributes with
    a field here is not represented. [v_content] lists the other entries of
    the object, key and JSON text, in the order of its keys. *)
Record Values := mkValues {
  v_id : option string;
  v_userId : option string;
  v_name : option string;
  v_database : option string;
  v_content : list (string * string);
  v_gistId : option (option string);
  v_loadedFromGistId : option (option string);
  v_lastModified : option Z;
  v_lastModifiedBy : option (option string);
  v_version : option Z;
  v_isShared : option bool
}.

(** What passes [body('expectedVersion').isInt()]: a JSON number that is an
    integer, or a string that spells one. The validator does not convert. *)
Inductive JsInt :=
| JsNumber (n : Z)
| JsString (s : string).

(** The body of [PUT /:id]:
    [const { expectedVersion, ...diagramData } = req.body]. *)
Record Body := mkBody {
  expectedVersion : option JsInt;
  diagramData : Values
}.

(** JavaScript truthiness of [expectedVersion] ([undefined], [0] and the
    empty string are falsy). *)
Definition truthy (e : option JsInt) : bool :=
  match e with
  | None => false
  | Some (JsNumber n) => negb (n =? 0)
  | Some (JsString s) => negb (String.eqb s "")
  end.

(** [diagram.version !== e] for the integer column [version]: strict
    inequality never identifies a number with a string. *)
Definition strict_neq (v : Z) (e : option JsInt) : bool :=
  match e with
  | Some (JsNumber n) => negb (v =? n)
  | _ => true
  end.

(** The database. [users] is the set of primary keys of [users]. *)
Record Store := mkStore {
  users : gset string;
  diagrams : gmap string Diagram;
  diagram_shares : list DiagramShare
}.

(** What the controller relies on Sequelize and PostgreSQL for.
    - [accepts st id d]: whether the row [d] may be written under the key
      [id] in the store [st], as far as the validation of the instance and
      the constraints of the table go (column types and lengths, NOT NULL,
      the foreign keys to [users], the syntax of the key); the uniqueness of
      the primary key is decided by the table itself.
    - [nested_write old path v]: the value of a JSON attribute, [old]
      before, after [set] has written [v] at [path] inside it
      ([Dottie.set]), or [None] when that throws.
    - [scan l]: the rows [l] a query without ORDER BY selects, in the order
      the database returns them. *)
Record Database := mkDatabase {
  accepts : Store → string → Diagram → bool;
  nested_write : option string → string → string → option string;
  scan : list DiagramShare → list DiagramShare;
  scan_perm : ∀ l, scan l ≡ₚ l
}.

(** ** Sequelize model operations *)

(** [diagram.toJSON()]. *)
Definition toJSON (id : string) (d : Diagram) : Values :=
  {| v_id := Some id;
     v_userId := Some (userId d);
     v_name := Some (name d);
     v_database := Some (database d);
     v_content := map_to_list (content d);
     v_gistId := Some (gistId d);
     v_loadedFromGistId := Some (loadedFromGistId d);
     v_lastModified := Some (lastModified d);
     v_lastModifiedBy := Some (lastModifiedBy d);
     v_version := Some (version d);
     v_isShared := Some (isShared d) |}.

(** [key.split('.')]: the part of a key before its first dot, and the
    rest. *)
Fixpoint split_dot (k : string) : option (string * string) :=
  match k with
  | EmptyString => None
  | String c k' =>
      if Ascii.eqb c "."%char then Some (EmptyString, k')
      else match split_dot k' with
           | Some (a, path) => Some (String c a, path)
           | None => None
           end
  end.

(** [set(key, value)] for a key that has no field of its own in [Values]:
    an attribute is assigned; a dotted key whose first part is a JSON
    attribute is written inside that attribute's value; any other key is
    no attribute and is ignored. [None] when the nested write throws. *)
Definition set_content (db : Database) (c : gmap string string)
    (kv : string * string) : option (gmap string string) :=
  if bool_decide (kv.1 ∈ jsonAttributes) then Some (<[kv.1 := kv.2]> c)
  else match split_dot kv.1 with
       | Some (a, path) =>
           if bool_decide (a ∈ jsonColumns)
           then (λ new, <[a := new]> c) <$> nested_write db (c !! a) path kv.2
           else Some c
       | None => Some c
       end.

(** [set(values)]: the keys are set one after the other, in their order. *)
Definition assign_content (db : Database) (c : gmap string string)
    (l : list (string * string)) : option (gmap string string) :=
  foldl (λ acc kv, acc ≫= λ c, set_content db c kv) (Some c) l.

(** The row [diagram.update(values)] writes for a loaded instance: every
    attribute present in [values] is assigned, except the primary key,
    which [set] leaves alone once it is defined. *)
Definition Diagram_update (db : Database) (d : Diagram) (v : Values)
  : Diagram :=
  {| userId := default (userId d) (v_userId v);
     name := default (name d) (v_name v);
     database := default (database d) (v_database v);
     content :=
       default (content d) (assign_content db (content d) (v_content v));
     gistId := default (gistId d) (v_gistId v);
     loadedFromGistId := default (loadedFromGistId d) (v_loadedFromGistId v);
     lastModified := default (lastModified d) (v_lastModified v);
     lastModifiedBy := default (lastModifiedBy d) (v_lastModifiedBy v);
     version := default (version d) (v_version v);
     isShared := default (isShared d) (v_isShared v) |}.

(** Whether [diagram.update(values)] goes through: no nested write throws
    and the database accepts the row. *)
Definition Diagram_update_accepted (db : Database) (st : Store) (id : string)
    (d : Diagram) (v : Values) : bool :=
  match assign_content db (content d) (v_content v) with
  | Some _ => accepts db st id (Diagram_update db d v)
  | None => false
  end.

(** The column defaults a new instance starts from: those of the
    attributes that are no key of the values. *)
Definition initial_content (l : list (string * string))
  : gmap string string :=
  filter (λ kv, kv.1 ∉ l.*1) contentDefaults.

(** The row built by [Diagram.create(values)]: the attributes the values
    do not hold take the column defaults of [Diagram.init], then the
    values are set; [userId] has no default and is NOT NULL. *)
Definition Diagram_build (db : Database) (v : Values) (now : Z)
  : option Diagram :=
  match v_userId v,
        assign_content db (initial_content (v_content v)) (v_content v) with
  | Some u, Some c =>
      Some {| userId := u;
              name := default "Untitled Diagram" (v_name v);
              database := default "generic" (v_database v);
              content := c;
              gistId := default None (v_gistId v);
              loadedFromGistId := default None (v_loadedFromGistId v);
              lastModified := default now (v_lastModified v);
              lastModifiedBy := default None (v_lastModifiedBy v);
              version := default 1 (v_version v);
              isShared := default false (v_isShared v) |}
  | _, _ => None
  end.

(** [Diagram.create(values)]: the key is the given [id] or else the
    generated [uuid]; the insert fails when the row cannot be built, the
    key is taken, or the database refuses the row. *)
Definition Diagram_create (db : Database) (st : Store) (v : Values)
    (uuid : string) (now : Z) : option (string * Diagram) :=
  let key := default uuid (v_id v) in
  match Diagram_build db v now, diagrams st !! key with
  | Some d, None => if accepts db st key d then Some (key, d) else None
  | _, _ => None
  end.

Definition set_diagrams (st : Store) (ds : gmap string Diagram) : Store :=
  {| users := users st; diagrams := ds; diagram_shares := diagram_shares st |}.

Definition set_shares (st : Store) (ss : list DiagramShare) : Store :=
  {| users := users st; diagrams := diagrams st; diagram_shares := ss |}.

(** ** HTTP responses *)

(** [currentVersion] of the 409 response of [update]. *)
Record ConflictInfo := mkConflictInfo {
  c_version : Z;
  c_lastModified : Z;
  c_lastModifiedBy : option string;
  c_data : Values
}.

(** The body of [GET /:id/version]: the selected attributes. *)
Record VersionInfo := mkVersionInfo {
  vi_id : string;
  vi_version : Z;
  vi_lastModified : Z;
  vi_lastModifiedBy : option string
}.

(** One constructor per [res.status(..).json(..)] of the controller. *)
Inductive Response :=
| AuthenticationRequired                         (* 401 *)
| AccessDenied                                   (* 403, getById *)
| NoEditPermission                               (* 403, update *)
| DiagramNotFound                                (* 404 *)
| DiagramNotFoundOrAccessDenied                  (* 404 *)
| UserNotFound                                   (* 404 *)
| ShareNotFound                                  (* 404 *)
| ConflictDetected (cur : ConflictInfo)          (* 409, update *)
| SyncConflict (cur : Values)                    (* 409, sync *)
| AlreadyShared                                  (* 409 *)
| ServerError                                    (* 500, the catch block *)
| DiagramJson (id : string) (d : Diagram) (shares : list DiagramShare)
                                                 (* 200, getById *)
| Updated (id : string) (d : Diagram)            (* 200, update *)
| Created (id : string) (d : Diagram)            (* 201, create, duplicate *)
| Deleted                                        (* 200 *)
| VersionJson (v : VersionInfo)                  (* 200, getVersion *)
| InSync (v : Z)                                 (* 200, sync *)
| Shared (s : DiagramShare)                      (* 201 *)
| SharesJson (l : list DiagramShare)             (* 200, getShares *)
| PermissionUpdated (s : DiagramShare)           (* 200 *)
| ShareRevoked.                                  (* 200 *)

Definition status (r : Response) : Z :=
  match r with
  | AuthenticationRequired => 401
  | AccessDenied | NoEditPermission => 403
  | DiagramNotFound | DiagramNotFoundOrAccessDenied
  | UserNotFound | ShareNotFound => 404
  | ConflictDetected _ | SyncConflict _ | AlreadyShared => 409
  | ServerError => 500
  | Created _ _ | Shared _ => 201
  | DiagramJson _ _ _ | Updated _ _ | Deleted | VersionJson _ | InSync _
  | SharesJson _ | PermissionUpdated _ | ShareRevoked => 200
  end.

(** ** Queries on the share table *)

(** [where: { diagramId: id, sharedWithUserId: u }]. *)
Definition share_of (id u : string) (s : DiagramShare) : bool :=
  bool_decide (diagramId s = id) && bool_decide (sharedWithUserId s = u).

(** [where: { diagramId, sharedWithUserId,
              permissionLevel: { [Op.in]: [EDITOR, OWNER] } }]. *)
Definition edit_share_of (id u : string) (s : DiagramShare) : bool :=
  share_of id u s && bool_decide (permissionLevel s ∈ [EDITOR; OWNER]).

(** [where: { diagramId: id }]. *)
Definition share_on (id : string) (s : DiagramShare) : bool :=
  bool_decide (diagramId s = id).

(** [DiagramShare.findOne({ where })]. *)
Definition findOne (p : DiagramShare → bool) (l : list DiagramShare)
  : option DiagramShare := List.find p l.

(** [DiagramShare.destroy({ where })]: the remaining rows. *)
Definition destroy (p : DiagramShare → bool) (l : list DiagramShare)
  : list DiagramShare := List.filter (λ s, negb (p s)) l.

(** The number of rows [DiagramShare.destroy({ where })] deletes, and
    [DiagramShare.count({ where })]. *)
Definition count (p : DiagramShare → bool) (l : list DiagramShare) : nat :=
  length (List.filter p l).

(** [share.update({ permissionLevel })] on the row [findOne] returned: the
    first row that matches. *)
Fixpoint update_found (p : DiagramShare → bool) (lvl : PermissionLevel)
    (l : list DiagramShare) : list DiagramShare :=
  match l with
  | [] => []
  | s :: l' =>
      if p s
      then mkDiagramShare (diagramId s) (sharedWithUserId s)
             (sharedByUserId s) lvl :: l'
      else s :: update_found p lvl l'
  end.

(** [Diagram.findOne({ where: { id, userId: req.userId } })]. *)
Definition findOwned (st : Store) (id u : string) : option Diagram :=
  match diagrams st !! id with
  | Some d => if bool_decide (userId d = u) then Some d else None
  | None => None
  end.

(** [{ isShared: b }]. *)
Definition isSharedOnly (b : bool) : Values :=
  {| v_id := None; v_userId := None; v_name := None; v_database := None;
     v_content := []; v_gistId := None; v_loadedFromGistId := None;
     v_lastModified := None; v_lastModifiedBy := None; v_version := None;
     v_isShared := Some b |}.

(** ** The controller *)

Module DiagramController.

Section Handlers.

(** The database, [new Date()] and the value of the [UUIDV4] default for
    this request. *)
Variables (db : Database) (now : Z) (uuid : string).

(** [getById]: the creator, or a user holding any share, may read. *)
Definition getById (st : Store) (reqUserId : option string) (id : string)
  : Store * Response :=
  match reqUserId with
  | None => (st, AuthenticationRequired)
  | Some u =>
      match diagrams st !! id with
      | None => (st, DiagramNotFound)
      | Some diagram =>
          let shares := List.filter (share_of id u) (diagram_shares st) in
          let isOwner := bool_decide (userId diagram = u) in
          let hasSharedAccess := negb (Nat.eqb (length shares) 0) in
          if negb isOwner && negb hasSharedAccess
          then (st, AccessDenied)
          else (st, DiagramJson id diagram shares)
      end
  end.

(** [create]: [{ ...req.body, userId, lastModifiedBy, version: 1 }]; a
    failed insert is caught (500). *)
Definition create (st : Store) (reqUserId : option string) (body : Values)
  : Store * Response :=
  match reqUserId with
  | None => (st, AuthenticationRequired)
  | Some u =>
      let diagramData :=
        {| v_id := v_id body;
           v_userId := Some u;
           v_name := v_name body;
           v_database := v_database body;
           v_content := v_content body;
           v_gistId := v_gistId body;
           v_loadedFromGistId := v_loadedFromGistId body;
           v_lastModified := v_lastModified body;
           v_lastModifiedBy := Some (Some u);
           v_version := Some 1;
           v_isShared := v_isShared body |} in
      match Diagram_create db st diagramData uuid now with
      | Some (key, diagram) =>
          (set_diagrams st (<[key := diagram]> (diagrams st)),
           Created key diagram)
      | None => (st, ServerError)
      end
  end.

(** [update]: lock the row, check the edit permission, detect a conflict,
    write. Every early return rolls the transaction back, and so does the
    [catch] block when the write fails (500). *)
Definition update (st : Store) (reqUserId : option string) (id : string)
    (body : Body) : Store * Response :=
  match reqUserId with
  | None => (st, AuthenticationRequired)
  | Some u =>
      match diagrams st !! id with
      | None => (st, DiagramNotFound)
      | Some diagram =>
          let isOwner := bool_decide (userId diagram = u) in
          let hasEditAccess :=
            if isOwner then false
            else bool_decide
                   (is_Some
                      (findOne (edit_share_of id u) (diagram_shares st))) in
          if negb isOwner && negb hasEditAccess
          then (st, NoEditPermission)
          else if truthy (expectedVersion body)
                  && strict_neq (version diagram) (expectedVersion body)
          then (st, ConflictDetected
                      {| c_version := version diagram;
                         c_lastModified := lastModified diagram;
                         c_lastModifiedBy := lastModifiedBy diagram;
                         c_data := toJSON id diagram |})
          else
            let data := diagramData body in
            let values :=
              {| v_id := v_id data;
                 v_userId := v_userId data;
                 v_name := v_name data;
                 v_database := v_database data;
                 v_content := v_content data;
                 v_gistId := v_gistId data;
                 v_loadedFromGistId := v_loadedFromGistId data;
                 v_lastModified := Some now;
                 v_lastModifiedBy := Some (Some u);
                 v_version := Some (version diagram + 1);
                 v_isShared := v_isShared data |} in
            if Diagram_update_accepted db st id diagram values
            then
              let diagram' := Diagram_update db diagram values in
              (set_diagrams st (<[id := diagram']> (diagrams st)),
               Updated id diagram')
            else (st, ServerError)
      end
  end.

(** [delete]: only the row whose [userId] is the requester is found; the
    shares of a destroyed diagram go with it (ON DELETE CASCADE). *)
Definition delete (st : Store) (reqUserId : option string) (id : string)
  : Store * Response :=
  match reqUserId with
  | None => (st, AuthenticationRequired)
  | Some u =>
      match findOwned st id u with
      | None => (st, DiagramNotFoundOrAccessDenied)
      | Some _ =>
          ({| users := users st;
              diagrams := base.delete id (diagrams st);
              diagram_shares := destroy (share_on id) (diagram_shares st) |},
           Deleted)
      end
  end.

(** [getVersion]. *)
Definition getVersion (st : Store) (reqUserId : option string) (id : string)
  : Store * Response :=
  match reqUserId with
  | None => (st, AuthenticationRequired)
  | Some _ =>
      match diagrams st !! id with
      | None => (st, DiagramNotFound)
      | Some diagram =>
          (st, VersionJson {| vi_id := id;
                              vi_version := version diagram;
                              vi_lastModified := lastModified diagram;
                              vi_lastModifiedBy := lastModifiedBy diagram |})
      end
  end.

(** [duplicate]: the copy is built from [originalDiagram.toJSON()] without
    its [id]; a failed insert is caught (500). *)
Definition duplicate (st : Store) (reqUserId : option string) (id : string)
  : Store * Response :=
  match reqUserId with
  | None => (st, AuthenticationRequired)
  | Some u =>
      match diagrams st !! id with
      | None => (st, DiagramNotFound)
      | Some originalDiagram =>
          let duplicateData := toJSON id originalDiagram in
          let values :=
            {| v_id := None;
               v_userId := Some u;
               v_name := Some (name originalDiagram +:+ " (Copy)");
               v_database := v_database duplicateData;
               v_content := v_content duplicateData;
               v_gistId := Some None;
               v_loadedFromGistId := Some (gistId originalDiagram);
               v_lastModified := v_lastModified duplicateData;
               v_lastModifiedBy := Some (Some u);
               v_version := Some 1;
               v_isShared := v_isShared duplicateData |} in
          match Diagram_create db st values uuid now with
          | Some (key, newDiagram) =>
              (set_diagrams st (<[key := newDiagram]> (diagrams st)),
               Created key newDiagram)
          | None => (st, ServerError)
          end
      end
  end.

(** [sync]: [expectedVersion] is required by the route. *)
Definition sync (st : Store) (reqUserId : option string) (id : string)
    (expected : JsInt) : Store * Response :=
  match reqUserId with
  | None => (st, AuthenticationRequired)
  | Some _ =>
      match diagrams st !! id with
      | None => (st, DiagramNotFound)
      | Some diagram =>
          if strict_neq (version diagram) (Some expected)
          then (st, SyncConflict (toJSON id diagram))
          else (st, InSync (version diagram))
      end
  end.

(** [shareDiagram]: [userId] and [permissionLevel] come from the body;
    the route admits only the three levels. *)
Definition shareDiagram (st : Store) (reqUserId : option string)
    (id sharedWith : string) (level : PermissionLevel) : Store * Response :=
  match reqUserId with
  | None => (st, AuthenticationRequired)
  | Some u =>
      match findOwned st id u with
      | None => (st, DiagramNotFoundOrAccessDenied)
      | Some diagram =>
          if negb (bool_decide (sharedWith ∈ users st))
          then (st, UserNotFound)
          else
            match findOne (share_of id sharedWith) (diagram_shares st) with
            | Some _ => (st, AlreadyShared)
            | None =>
                let share :=
                  {| diagramId := id;
                     sharedWithUserId := sharedWith;
                     sharedByUserId := u;
                     permissionLevel := level |} in
                ({| users := users st;
                    diagrams :=
                      <[id := Diagram_update db diagram (isSharedOnly true)]>
                        (diagrams st);
                    diagram_shares := diagram_shares st ++ [share] |},
                 Shared share)
            end
      end
  end.

(** [getShares]: the [findAll] has no ORDER BY. *)
Definition getShares (st : Store) (reqUserId : option string) (id : string)
  : Store * Response :=
  match reqUserId with
  | None => (st, AuthenticationRequired)
  | Some u =>
      match findOwned st id u with
      | None => (st, DiagramNotFoundOrAccessDenied)
      | Some _ =>
          (st, SharesJson
                 (scan db (List.filter (share_on id) (diagram_shares st))))
      end
  end.

(** [updateShare]. *)
Definition updateShare (st : Store) (reqUserId : option string)
    (id sharedWith : string) (level : PermissionLevel) : Store * Response :=
  match reqUserId with
  | None => (st, AuthenticationRequired)
  | Some u =>
      match findOwned st id u with
      | None => (st, DiagramNotFoundOrAccessDenied)
      | Some _ =>
          match findOne (share_of id sharedWith) (diagram_shares st) with
          | None => (st, ShareNotFound)
          | Some share =>
              (set_shares st
                 (update_found (share_of id sharedWith) level
                    (diagram_shares st)),
               PermissionUpdated
                 {| diagramId := diagramId share;
                    sharedWithUserId := sharedWithUserId share;
                    sharedByUserId := sharedByUserId share;
                    permissionLevel := level |})
          end
      end
  end.

(** [revokeShare]: [isShared] is cleared when no share of the diagram
    remains. *)
Definition revokeShare (st : Store) (reqUserId : option string)
    (id sharedWith : string) : Store * Response :=
  match reqUserId with
  | None => (st, AuthenticationRequired)
  | Some u =>
      match findOwned st id u with
      | None => (st, DiagramNotFoundOrAccessDenied)
      | Some diagram =>
          let deleted := count (share_of id sharedWith) (diagram_shares st) in
          if Nat.eqb deleted 0
          then (st, ShareNotFound)
          else
            let shares' :=
              destroy (share_of id sharedWith) (diagram_shares st) in
            let remainingShares := count (share_on id) shares' in
            ({| users := users st;
                diagrams :=
                  if Nat.eqb remainingShares 0
                  then <[id := Diagram_update db diagram (isSharedOnly false)]>
                         (diagrams st)
                  else diagrams st;
                diagram_shares := shares' |},
             ShareRevoked)
      end
  end.

End Handlers.

End DiagramController.

(** ** Requests and the step of the server *)

(** A validated request to a route of [routes/diagram-route.ts]. The two
    listing routes ([getAll], [getSharedWithMe]) only run [findAll] queries
    and are left out. *)
Inductive Request :=
| GetById (id : string)
| Create (body : Values)
| Update (id : string) (body : Body)
| Delete (id : string)
| GetVersion (id : string)
| Duplicate (id : string)
| Sync (id : string) (expected : JsInt)
| ShareDiagram (id sharedWith : string) (level : PermissionLevel)
| GetShares (id : string)
| UpdateShare (id sharedWith : string) (level : PermissionLevel)
| RevokeShare (id sharedWith : string).

Definition handle (db : Database) (now : Z) (uuid : string) (st : Store)
    (reqUserId : option string) (r : Request) : Store * Response :=
  match r with
  | GetById id => DiagramController.getById st reqUserId id
  | Create body => DiagramController.create db now uuid st reqUserId body
  | Update id body => DiagramController.update db now st reqUserId id body
  | Delete id => DiagramController.delete st reqUserId id
  | GetVersion id => DiagramController.getVersion st reqUserId id
  | Duplicate id => DiagramController.duplicate db now uuid st reqUserId id
  | Sync id e => DiagramController.sync st reqUserId id e
  | ShareDiagram id w l =>
      DiagramController.shareDiagram db st reqUserId id w l
  | GetShares id => DiagramController.getShares db st reqUserId id
  | UpdateShare id w l => DiagramController.updateShare st reqUserId id w l
  | RevokeShare id w => DiagramController.revokeShare db st reqUserId id w
  end.

(** The stores the server can be in: both tables empty at first, then any
    sequence of requests. *)
Inductive reachable (db : Database) : Store → Prop :=
| reachable_init (us : gset string) :
    reachable db {| users := us; diagrams := ∅; diagram_shares := [] |}
| reachable_step now uuid st reqUserId r :
    reachable db st →
    reachable db (handle db now uuid st reqUserId r).1.

(** ** The specification's access-control vocabulary

    These definitions follow the words of the specification (4.2, 3); the
    controller itself has no such functions, and the theorems below compare
    its checks with them. *)

Module Spec.

Inductive Level := none | viewer | editor | owner.

Definition of_share (p : PermissionLevel) : Level :=
  match p with VIEWER => viewer | EDITOR => editor | OWNER => owner end.

(** "If [actorId == document.ownerId], return [owner]. Else look up a
    Share Entry for [(document.id, actorId)]. If present, return its
    [level]. Else return [none]." *)
Definition effectivePermission (st : Store) (actorId id : string)
    (document : Diagram) : Level :=
  if bool_decide (actorId = userId document) then owner
  else match findOne (share_of id actorId) (diagram_shares st) with
       | Some entry => of_share (permissionLevel entry)
       | None => none
       end.

(** "[canMutatePayload = level in {editor, owner}]". *)
Definition canMutatePayload (l : Level) : bool :=
  match l with editor | owner => true | _ => false end.

(** "[canManageShares = level == owner]". *)
Definition canManageShares (l : Level) : bool :=
  match l with owner => true | _ => false end.

(** "[shared]: derived boolean, true iff at least one Share Registry
    entry references this document." *)
Definition shared (st : Store) (id : string) : bool :=
  existsb (share_on id) (diagram_shares st).

End Spec.

(** ** Invariants of the share table *)

Definition share_key (s : DiagramShare) : string * string :=
  (diagramId s, sharedWithUserId s).

(** The unique index [unique_diagram_user]. *)
Definition shares_unique (st : Store) : Prop :=
  NoDup (share_key <$> diagram_shares st).

(** The foreign key of [sharedWithUserId]. *)
Definition shares_known (st : Store) : Prop :=
  ∀ s, s ∈ diagram_shares st → sharedWithUserId s ∈ users st.

Definition store_inv (st : Store) : Prop :=
  shares_unique st ∧ shares_known st.

(** An answer that refuses the request for lack of rights: a 403, or the
    404 that the ownership query of the share and delete handlers gives. *)
Definition refused (r : Response) : Prop :=
  status r = 403 ∨ r = DiagramNotFoundOrAccessDenied.

(** The write of a successful [update]: the row after, and the pair the
    handler returns. *)
Definition updated_row (db : Database) (now : Z) (u : string) (d : Diagram)
    (body : Body) : Diagram :=
  let data := diagramData body in
  {| userId := default (userId d) (v_userId data);
     name := default (name d) (v_name data);
     database := default (database d) (v_database data);
     content :=
       default (content d) (assign_content db (content d) (v_content data));
     gistId := default (gistId d) (v_gistId data);
     loadedFromGistId := default (loadedFromGistId d) (v_loadedFromGistId data);
     lastModified := now;
     lastModifiedBy := Some u;
     version := version d + 1;
     isShared := default (isShared d) (v_isShared data) |}.

Definition committed (db : Database) (now : Z) (st : Store) (u id : string)
    (d : Diagram) (body : Body) : Store * Response :=
  (set_diagrams st (<[id := updated_row db now u d body]> (diagrams st)),
   Updated id (updated_row db now u d body)).

(** Whether the write of [update] goes through: no nested write of the
    body throws and the database accepts the row. *)
Definition write_accepted (db : Database) (now : Z) (st : Store)
    (u id : string) (d : Diagram) (body : Body) : bool :=
  match assign_content db (content d) (v_content (diagramData body)) with
  | Some _ => accepts db st id (updated_row db now u d body)
  | None => false
  end.

(** The 409 answer of [update] for the stored row [d]. *)
Definition conflict_of (id : string) (d : Diagram) : Response :=
  ConflictDetected {| c_version := version d;
                      c_lastModified := lastModified d;
                      c_lastModifiedBy := lastModifiedBy d;
                      c_data := toJSON id d |}.

(** ** Sample data for the closed examples *)

Module Sample.

(** [INTEGER] and [VARCHAR(n)]. *)
Definition int4 (z : Z) : bool :=
  (-2147483648 <=? z) && (z <=? 2147483647).

Definition varchar (n : nat) (s : string) : bool :=
  Nat.leb (String.length s) n.

(** The constraints of [migrations/001_initial_schema.sql] on a row of
    [diagrams]: the foreign keys of [user_id] and [last_modified_by], the
    VARCHAR lengths and the INTEGER range. *)
Definition schema_accepts (st : Store) (key : string) (d : Diagram) : bool :=
  bool_decide (userId d ∈ users st)
  && match lastModifiedBy d with
     | Some u => bool_decide (u ∈ users st)
     | None => true
     end
  && varchar 255 (name d)
  && varchar 50 (database d)
  && from_option (varchar 255) true (gistId d)
  && from_option (varchar 255) true (loadedFromGistId d)
  && int4 (version d).

(** The database of the examples: it enforces these constraints and
    returns rows in the order of insertion. The identifiers of the examples
    stand for UUIDs, and no example sends a dotted key (this database would
    refuse it). *)
Definition db : Database :=
  {| accepts := schema_accepts;
     nested_write := λ _ _ _, None;
     scan := λ l, l;
     scan_perm := λ l, reflexivity l |}.

Definition noValues : Values :=
  {| v_id := None; v_userId := None; v_name := None; v_database := None;
     v_content := []; v_gistId := None; v_loadedFromGistId := None;
     v_lastModified := None; v_lastModifiedBy := None; v_version := None;
     v_isShared := None |}.

(** Three registered users and no diagram. *)
Definition st0 : Store :=
  {| users := {["alice"; "bob"; "carol"]}; diagrams := ∅;
     diagram_shares := [] |}.

(** alice creates diagram d1 at time 100. *)
Definition st1 : Store :=
  (DiagramController.create db 100 "d1" st0 (Some "alice") noValues).1.

Definition d1 : Diagram :=
  {| userId := "alice"; name := "Untitled Diagram"; database := "generic";
     content := contentDefaults; gistId := None; loadedFromGistId := None;
     lastModified := 100; lastModifiedBy := Some "alice"; version := 1;
     isShared := false |}.

(** alice shares d1 with bob, as editor or as owner. *)
Definition st_editor : Store :=
  (DiagramController.shareDiagram db st1 (Some "alice") "d1" "bob" EDITOR).1.

Definition st_owner : Store :=
  (DiagramController.shareDiagram db st1 (Some "alice") "d1" "bob" OWNER).1.

(** alice shares d1 with herself. *)
Definition st_self : Store :=
  (DiagramController.shareDiagram db st1 (Some "alice") "d1" "alice"
     EDITOR).1.

(** A body that renames the diagram. *)
Definition rename (e : option JsInt) (n : string) : Body :=
  {| expectedVersion := e;
     diagramData :=
       {| v_id := None; v_userId := None; v_name := Some n;
          v_database := None; v_content := []; v_gistId := None;
          v_loadedFromGistId := None; v_lastModified := None;
          v_lastModifiedBy := None; v_version := None;
          v_isShared := None |} |}.

(** A body that names a new [userId]. *)
Definition takeover (e : option JsInt) (u : string) : Body :=
  {| expectedVersion := e;
     diagramData :=
       {| v_id := None; v_userId := Some u; v_name := None;
          v_database := None; v_content := []; v_gistId := None;
          v_loadedFromGistId := None; v_lastModified := None;
          v_lastModifiedBy := None; v_version := None;
          v_isShared := None |} |}.

(** A name of [n] characters. *)
Fixpoint long_name (n : nat) : string :=
  match n with
  | O => EmptyString
  | S n' => String "n"%char (long_name n')
  end.


End Sample.


(** ** Statements that the controller does not satisfy as they stand

    Each is refuted below at a concrete store, and followed by the
    statement that does hold. *)

(** Every [update] by an actor with mutation rights compares
    [expectedVersion] with the stored version, and a request whose
    [expectedVersion] is not the stored version ends in the conflict
    answer with nothing written. *)
Definition update_always_compares : Prop :=
  ∀ db now st u id d body,
    diagrams st !! id = Some d →
    Spec.canMutatePayload (Spec.effectivePermission st u id d) = true →
    expectedVersion body ≠ Some (JsNumber (version d)) →
    DiagramController.update db now st (Some u) id body
    = (st, conflict_of id d).

(** The three share-management handlers refuse a requester exactly when
    the requester's effective permission is not [owner]. *)
Definition share_management_by_effective_owner : Prop :=
  ∀ db st u id d w l,
    diagrams st !! id = Some d →
    let manages :=
      Spec.canManageShares (Spec.effectivePermission st u id d) in
    (refused (DiagramController.shareDiagram db st (Some u) id w l).2
       ↔ manages = false)
    ∧ (refused (DiagramController.updateShare st (Some u) id w l).2
       ↔ manages = false)
    ∧ (refused (DiagramController.revokeShare db st (Some u) id w).2
       ↔ manages = false).


(** [delete] answers with three distinguishable outcomes: Deleted only for
    the creator, Forbidden (403) for any other requester of an existing
    diagram, NotFound (404) only when the diagram does not exist. *)
Definition delete_distinguishes_forbidden : Prop :=
  ∀ st u id,
    let r := (DiagramController.delete st (Some u) id).2 in
    (r = Deleted → ∃ d, diagrams st !! id = Some d ∧ userId d = u)
    ∧ (∀ d, diagrams st !! id = Some d → userId d ≠ u → status r = 403)
    ∧ (status r = 404 → diagrams st !! id = None).

(** After the creator revokes the only share of a diagram, the diagram is
    not shared, the former grantee has no permission, and an [update] by
    the former grantee is answered 403. *)
Definition revoke_last_leaves_none : Prop :=
  ∀ db now st id d e body,
    diagrams st !! id = Some d →
    List.filter (share_on id) (diagram_shares st) = [e] →
    let grantee := sharedWithUserId e in
    let st' :=
      (DiagramController.revokeShare db st (Some (userId d)) id grantee).1 in
    ∃ d', diagrams st' !! id = Some d'
          ∧ isShared d' = false
          ∧ Spec.shared st' id = false
          ∧ Spec.effectivePermission st' grantee id d' = Spec.none
          ∧ (DiagramController.update db now st' (Some grantee) id body).2
            = NoEditPermission.

(** The edit check of [update], as one boolean: [isOwner || hasEditAccess]. *)
Definition may_edit (st : Store) (u id : string) (d : Diagram) : bool :=
  bool_decide (userId d = u)
  || bool_decide (is_Some (findOne (edit_share_of id u) (diagram_shares st))).



(** The store after the share of [grantee], the last one on diagram [id]
    (row [d]), has been revoked. *)
Definition after_revoke (db : Database) (st : Store) (id : string)
    (d : Diagram) (grantee : string) : Store :=
  {| users := users st;
     diagrams :=
       <[id := Diagram_update db d (isSharedOnly false)]> (diagrams st);
     diagram_shares := destroy (share_of id grantee) (diagram_shares st) |}.

(** What one request can do to the share table: nothing; append a row for
    a registered user and a pair that has none; change the level of a
    pair's row; delete the rows selected by a query. *)
Inductive shares_step (st : Store) : list DiagramShare → Prop :=
| shares_same : shares_step st (diagram_shares st)
| shares_add id w u lvl :
    w ∈ users st →
    findOne (share_of id w) (diagram_shares st) = None →
    shares_step st (diagram_shares st ++ [mkDiagramShare id w u lvl])
| shares_level p lvl :
    shares_step st (update_found p lvl (diagram_shares st))
| shares_destroy p :
    shares_step st (destroy p (diagram_shares st)).

(** ** The listing handlers

    [getAll] and [getSharedWithMe] only read. Without an ORDER BY the
    database returns rows in an order of its choosing, and equal
    [lastModified] values may come in either order; the model takes the
    rows in the order of the table enumeration and sorts with a merge
    sort. *)

Module Listing.

(** The bodies of the two 200 answers. An entry of [sharedDiagrams] is the
    diagram with [permissionLevel: share?.permissionLevel]; an entry of
    [getSharedWithMe] is [share.diagram?.toJSON()] with the share's level
    and [sharedBy]. *)
Inductive ListResponse :=
| ListAuthenticationRequired
| AllDiagrams (ownDiagrams : list (string * Diagram))
    (sharedDiagrams : list (string * Diagram * option PermissionLevel))
| SharedWithMe
    (l : list (option (string * Diagram) * PermissionLevel * string)).

(** [order: [['lastModified', 'DESC']]]. *)
Definition newer_first (a b : string * Diagram) : Prop :=
  lastModified b.2 ≤ lastModified a.2.

#[global] Instance newer_first_dec a b : Decision (newer_first a b).
Proof. unfold newer_first. apply _. Defined.

(** [DiagramShare.findAll({ where: { sharedWithUserId } })]. *)
Definition sharesWith (st : Store) (u : string) : list DiagramShare :=
  List.filter (λ s, bool_decide (sharedWithUserId s = u)) (diagram_shares st).

(** [getAll]. *)
Definition getAll (st : Store) (reqUserId : option string)
  : Store * ListResponse :=
  match reqUserId with
  | None => (st, ListAuthenticationRequired)
  | Some u =>
      let ownDiagrams :=
        merge_sort newer_first
          (filter (λ r, userId r.2 = u) (map_to_list (diagrams st))) in
      let sharedDiagramIds := sharesWith st u in
      let sharedDiagrams :=
        filter (λ r, r.1 ∈ diagramId <$> sharedDiagramIds)
          (map_to_list (diagrams st)) in
      let sharedDiagramsWithPermissions :=
        (λ r : string * Diagram,
           (r, permissionLevel <$>
                 List.find (λ s, bool_decide (diagramId s = r.1))
                   sharedDiagramIds))
          <$> sharedDiagrams in
      (st, AllDiagrams ownDiagrams sharedDiagramsWithPermissions)
  end.

(** [getSharedWithMe]: the join on [diagram] is a left join. *)
Definition getSharedWithMe (st : Store) (reqUserId : option string)
  : Store * ListResponse :=
  match reqUserId with
  | None => (st, ListAuthenticationRequired)
  | Some u =>
      (st, SharedWithMe
             ((λ share,
                 ((λ d, (diagramId share, d))
                    <$> diagrams st !! diagramId share,
                  permissionLevel share, sharedByUserId share))
                <$> sharesWith st u))
  end.

End Listing.

(** ** The route table

    [routes/diagram-route.ts], in the order of registration. A request path
    below the mount point is its list of non-empty segments; a [:name]
    segment matches any one segment, a literal one matches without regard
    to case. Every chain ends the request (the validation middleware
    answers 400 or the handler answers), so the first route that matches
    serves the request. *)

Module Router.

Inductive Method := GET | POST | PUT | DELETE.

#[global] Instance Method_eq_dec : EqDecision Method.
Proof. solve_decision. Defined.

Inductive Segment :=
| Lit (s : string)
| Param (name : string).

Inductive Handler :=
| HgetAll | HgetById | Hcreate | Hupdate | Hdelete | Hduplicate
| HgetVersion | Hsync | HshareDiagram | HgetShares | HupdateShare
| HrevokeShare | HgetSharedWithMe.

#[global] Instance Handler_eq_dec : EqDecision Handler.
Proof. solve_decision. Defined.

Record Route := mkRoute {
  method : Method;
  pattern : list Segment;
  handler : Handler
}.

Definition routes : list Route :=
  [ mkRoute GET [] HgetAll;
    mkRoute GET [Param "id"] HgetById;
    mkRoute POST [] Hcreate;
    mkRoute PUT [Param "id"] Hupdate;
    mkRoute DELETE [Param "id"] Hdelete;
    mkRoute POST [Param "id"; Lit "duplicate"] Hduplicate;
    mkRoute GET [Param "id"; Lit "version"] HgetVersion;
    mkRoute POST [Param "id"; Lit "sync"] Hsync;
    mkRoute POST [Param "id"; Lit "share"] HshareDiagram;
    mkRoute GET [Param "id"; Lit "shares"] HgetShares;
    mkRoute PUT [Param "id"; Lit "shares"; Param "userId"] HupdateShare;
    mkRoute DELETE [Param "id"; Lit "shares"; Param "userId"] HrevokeShare;
    mkRoute GET [Lit "shared-with-me"] HgetSharedWithMe ].

(** ASCII lower case, for the case-insensitive match of literals. *)
Definition lower_ascii (c : Ascii.ascii) : Ascii.ascii :=
  let n := Ascii.nat_of_ascii c in
  if (Nat.leb 65 n && Nat.leb n 90)%bool
  then Ascii.ascii_of_nat (n + 32)
  else c.

Fixpoint lower (s : string) : string :=
  match s with
  | EmptyString => EmptyString
  | String c s' => String (lower_ascii c) (lower s')
  end.

(** The parameters bound when the pattern matches the path. *)
Fixpoint matchPath (p : list Segment) (path : list string)
  : option (list (string * string)) :=
  match p, path with
  | [], [] => Some []
  | Lit s :: p', x :: path' =>
      if String.eqb (lower s) (lower x) then matchPath p' path' else None
  | Param n :: p', x :: path' =>
      match matchPath p' path' with
      | Some ps => Some ((n, x) :: ps)
      | None => None
      end
  | _, _ => None
  end.

Fixpoint dispatchIn (rs : list Route) (m : Method) (path : list string)
  : option (Handler * list (string * string)) :=
  match rs with
  | [] => None
  | r :: rs' =>
      if bool_decide (method r = m)
      then match matchPath (pattern r) path with
           | Some ps => Some (handler r, ps)
           | None => dispatchIn rs' m path
           end
      else dispatchIn rs' m path
  end.

Definition dispatch : Method → list string
                      → option (Handler * list (string * string)) :=
  dispatchIn routes.

End Router.

(** ** Further notions *)

(** The handlers that only read. *)
Definition is_read (r : Request) : bool :=
  match r with
  | GetById _ | GetVersion _ | Sync _ _ | GetShares _ => true
  | _ => false
  end.

(** The diagram a request may write: its [:id] parameter. [create] and
    [duplicate] write only the row they insert. *)
Definition target (r : Request) : option string :=
  match r with
  | Update id _ | Delete id | ShareDiagram id _ _ | UpdateShare id _ _
  | RevokeShare id _ | GetById id | GetVersion id | Sync id _
  | GetShares id => Some id
  | Create _ | Duplicate _ => None
  end.

(** The foreign key of [diagramId]. *)
Definition shares_ref (st : Store) : Prop :=
  ∀ s, s ∈ diagram_shares st → is_Some (diagrams st !! diagramId s).

(** What holds of every stored diagram row. *)
Definition row_ok (d : Diagram) : Prop :=
  1 ≤ version d
  ∧ is_Some (lastModifiedBy d)
  ∧ dom (content d) = list_to_set jsonAttributes.

(** The attribute a key of an object writes to when it is set, if any:
    the attribute of that name, or the JSON attribute a dotted key leads
    into. *)
Definition written_attribute (k : string) : option string :=
  if bool_decide (k ∈ jsonAttributes) then Some k
  else match split_dot k with
       | Some (a, _) => if bool_decide (a ∈ jsonColumns) then Some a else None
       | None => None
       end.

(** A body for [update] that differs from [body] only in
    [expectedVersion]. *)
Definition with_expected (e : option JsInt) (body : Body) : Body :=
  {| expectedVersion := e; diagramData := diagramData body |}.

(** ** Lemmas on the queries *)

Example sample_st1 : diagrams Sample.st1 !! "d1" = Some Sample.d1.
Proof. vm_compute. reflexivity. Qed.

Example sample_st_editor :
  diagram_shares Sample.st_editor = [mkDiagramShare "d1" "bob" "alice" EDITOR].
Proof. vm_compute. reflexivity. Qed.

Section Queries.

Implicit Types (st : Store) (l : list DiagramShare) (s : DiagramShare).

Lemma findOwned_Some st id u d :
  findOwned st id u = Some d ↔ diagrams st !! id = Some d ∧ userId d = u.
Proof.
  unfold findOwned. destruct (diagrams st !! id) as [d0|]; [|naive_solver].
  case_bool_decide; naive_solver.
Qed.

Lemma findOwned_None st id u :
  findOwned st id u = None ↔
  ∀ d, diagrams st !! id = Some d → userId d ≠ u.
Proof.
  unfold findOwned. destruct (diagrams st !! id) as [d0|]; [|naive_solver].
  case_bool_decide; naive_solver.
Qed.

Lemma share_of_true id u s :
  share_of id u s = true ↔ share_key s = (id, u).
Proof.
  unfold share_of, share_key. rewrite andb_true_iff, !bool_decide_eq_true.
  naive_solver.
Qed.

Lemma find_none_iff (p : DiagramShare → bool) l :
  List.find p l = None ↔ ∀ s, s ∈ l → p s = false.
Proof.
  induction l as [|a l IH]; simpl.
  - split; [intros _ s Hs; inversion Hs | done].
  - destruct (p a) eqn:Ha.
    + split; [done|]. intros H. specialize (H a (list_elem_of_here _ _)).
      congruence.
    + rewrite IH. split.
      * intros H s Hs. apply elem_of_cons in Hs as [->|Hs]; auto.
      * intros H s Hs. apply H. by apply list_elem_of_further.
Qed.

Lemma find_some_elem (p : DiagramShare → bool) l s :
  List.find p l = Some s → s ∈ l ∧ p s = true.
Proof.
  intros H. apply find_some in H as [Hin Hp].
  split; [by apply list_elem_of_In | done].
Qed.

(** With the unique index, the row for a (diagram, user) pair is the
    only one with that key. *)
Lemma unique_key_absent id u s l :
  NoDup (share_key <$> (s :: l)) → share_of id u s = true →
  ∀ s', s' ∈ l → share_of id u s' = false.
Proof.
  intros Hnd Hs s' Hs'. apply share_of_true in Hs.
  rewrite fmap_cons in Hnd. apply NoDup_cons in Hnd as [Hnot _].
  destruct (share_of id u s') eqn:E; [|done].
  apply share_of_true in E. exfalso. apply Hnot.
  rewrite Hs, <- E. apply list_elem_of_fmap. eauto.
Qed.

(** The query of [update] for an editor- or owner-level share finds a
    row exactly when the pair's one row has such a level. *)
Lemma find_edit_share id u l :
  NoDup (share_key <$> l) →
  is_Some (findOne (edit_share_of id u) l) ↔
  ∃ s, findOne (share_of id u) l = Some s
       ∧ permissionLevel s ∈ [EDITOR; OWNER].
Proof.
  unfold findOne. induction l as [|a l IH]; intros Hnd; simpl.
  - split; [intros [? ?]; done | intros (? & ? & _); done].
  - unfold edit_share_of at 1. destruct (share_of id u a) eqn:Ha; simpl.
    + case_bool_decide as Hl.
      * split; [eauto | intros _; eauto].
      * split.
        -- intros [s Hs]. apply find_some_elem in Hs as [Hin Hp].
           unfold edit_share_of in Hp. apply andb_true_iff in Hp as [Hp _].
           rewrite (unique_key_absent id u a l Hnd Ha s Hin) in Hp. done.
        -- intros (s & [= <-] & Hs). done.
    + apply IH. rewrite fmap_cons in Hnd. by apply NoDup_cons in Hnd as [_ ?].
Qed.

(** Without any assumption: a pair's first row with an editor or owner
    level is found by the query of [update]. *)
Lemma find_edit_share_intro id u l s :
  findOne (share_of id u) l = Some s →
  permissionLevel s ∈ [EDITOR; OWNER] →
  is_Some (findOne (edit_share_of id u) l).
Proof.
  unfold findOne. intros Hf Hl. apply find_some_elem in Hf as [Hin Hp].
  destruct (List.find (edit_share_of id u) l) eqn:E; [eauto|].
  rewrite find_none_iff in E. specialize (E s Hin).
  unfold edit_share_of in E. rewrite Hp in E. simpl in E.
  by rewrite bool_decide_eq_false in E.
Qed.

End Queries.

(** ** Setting the entries of an object *)

Section Content.

Context (db : Database).

Implicit Types (c : gmap string string) (l : list (string * string)).

Lemma assign_content_cons c kv l :
  assign_content db c (kv :: l)
  = set_content db c kv ≫= λ c', assign_content db c' l.
Proof.
  unfold assign_content. simpl. destruct (set_content db c kv); [done|].
  simpl. induction l as [|x l IH]; [done | exact IH].
Qed.

Lemma set_content_attribute c kv :
  kv.1 ∈ jsonAttributes → set_content db c kv = Some (<[kv.1 := kv.2]> c).
Proof. intros H. unfold set_content. by rewrite bool_decide_eq_true_2. Qed.

Lemma jsonColumns_attributes a : a ∈ jsonColumns → a ∈ jsonAttributes.
Proof.
  unfold jsonColumns, jsonAttributes. rewrite !elem_of_cons. tauto.
Qed.

(** A key is set on the attribute it writes to and on nothing else. *)
Lemma set_content_other c kv c' k :
  set_content db c kv = Some c' →
  written_attribute kv.1 ≠ Some k →
  c' !! k = c !! k.
Proof.
  unfold set_content, written_attribute. case_bool_decide.
  - intros [= <-] Hk. rewrite lookup_insert_ne; [done | congruence].
  - destruct (split_dot kv.1) as [[a path]|]; [|by intros [= <-]].
    case_bool_decide; [|by intros [= <-]].
    destruct (nested_write db (c !! a) path kv.2); [|done].
    intros [= <-] Hk. rewrite lookup_insert_ne; [done | congruence].
Qed.

(** Setting a key keeps the attributes there are, adds at most an
    attribute of the model, and adds the key if it is one. *)
Lemma set_content_dom c kv c' :
  set_content db c kv = Some c' →
  dom c ⊆ dom c'
  ∧ dom c' ⊆ dom c ∪ list_to_set jsonAttributes
  ∧ (kv.1 ∈ jsonAttributes → kv.1 ∈ dom c').
Proof.
  unfold set_content. intros H.
  assert (Hins : ∀ a v, a ∈ jsonAttributes →
            dom c ⊆ dom (<[a := v]> c)
            ∧ dom (<[a := v]> c) ⊆ dom c ∪ list_to_set jsonAttributes).
  { intros a v Ha. rewrite dom_insert_L.
    apply (elem_of_list_to_set (C := gset string)) in Ha.
    clear -Ha. revert Ha.
    generalize (list_to_set jsonAttributes : gset string). set_solver. }
  case_bool_decide as Hk.
  - injection H as <-. destruct (Hins kv.1 kv.2 Hk) as [H1 H2].
    split; [done|]. split; [done|]. intros _. rewrite dom_insert_L.
    apply elem_of_union_l. by apply elem_of_singleton.
  - assert (Hsame : dom c ⊆ dom c
                    ∧ dom c ⊆ dom c ∪ list_to_set jsonAttributes
                    ∧ (kv.1 ∈ jsonAttributes → kv.1 ∈ dom c))
      by (split; [done|]; split; [apply union_subseteq_l | done]).
    destruct (split_dot kv.1) as [[a path]|]; [|by injection H as <-].
    case_bool_decide as Ha; [|by injection H as <-].
    destruct (nested_write db (c !! a) path kv.2); [|done].
    injection H as <-.
    destruct (Hins a s (jsonColumns_attributes a Ha)) as [H1 H2].
    split; [done|]. split; [done|]. done.
Qed.

Lemma assign_content_other l c c' k :
  assign_content db c l = Some c' →
  (∀ kv, kv ∈ l → written_attribute kv.1 ≠ Some k) →
  c' !! k = c !! k.
Proof.
  revert c. induction l as [|kv l IH]; intros c.
  - by intros [= <-].
  - rewrite assign_content_cons.
    destruct (set_content db c kv) as [c1|] eqn:E; [|done]. simpl.
    intros H Hall. rewrite (IH c1 H).
    + apply (set_content_other c kv c1 k E). apply Hall. left.
    + intros kv' Hin. apply Hall. by right.
Qed.

Lemma assign_content_dom_gen l c c' :
  assign_content db c l = Some c' →
  dom c ⊆ dom c'
  ∧ dom c' ⊆ dom c ∪ list_to_set jsonAttributes
  ∧ (∀ kv, kv ∈ l → kv.1 ∈ jsonAttributes → kv.1 ∈ dom c').
Proof.
  revert c. induction l as [|kv l IH]; intros c.
  - intros [= <-]. split; [done|]. split; [apply union_subseteq_l|].
    intros kv Hkv. inversion Hkv.
  - rewrite assign_content_cons.
    destruct (set_content db c kv) as [c1|] eqn:E; [|done].
    cbn [mbind option_bind]. intros H.
    destruct (IH c1 H) as (H1 & H2 & H3).
    destruct (set_content_dom c kv c1 E) as (G1 & G2 & G3).
    split; [by transitivity (dom c1)|]. split.
    { clear -G2 H2. revert G2 H2.
      generalize (list_to_set jsonAttributes : gset string). set_solver. }
    intros kv' [->|Hin]%elem_of_cons Hk; [|by apply H3].
    apply H1. by apply G3.
Qed.

Lemma assign_content_dom l c c' :
  assign_content db c l = Some c' →
  dom c = list_to_set jsonAttributes →
  dom c' = list_to_set jsonAttributes.
Proof.
  intros H Hc. destruct (assign_content_dom_gen l c c' H) as (H1 & H2 & _).
  rewrite Hc in H1, H2. clear -H1 H2. revert H1 H2.
  generalize (list_to_set jsonAttributes : gset string). set_solver.
Qed.

Lemma dom_contentDefaults : dom contentDefaults = list_to_set jsonAttributes.
Proof. unfold contentDefaults. rewrite dom_list_to_map_L. done. Qed.

Lemma elem_of_dom_initial_content l k :
  k ∈ dom (initial_content l) ↔ k ∈ jsonAttributes ∧ k ∉ l.*1.
Proof.
  unfold initial_content. rewrite elem_of_dom.
  rewrite <- (elem_of_list_to_set (C := gset string)), <- dom_contentDefaults.
  rewrite elem_of_dom. split.
  - intros [v [Hp Hv]%map_lookup_filter_Some]. eauto.
  - intros [[v Hv] Hk]. exists v. by apply map_lookup_filter_Some.
Qed.

(** A new instance has the nine attributes. *)
Lemma assign_content_initial l c' :
  assign_content db (initial_content l) l = Some c' →
  dom c' = list_to_set jsonAttributes.
Proof.
  intros H. destruct (assign_content_dom_gen l _ c' H) as (H1 & H2 & H3).
  apply set_eq. intros k. rewrite elem_of_list_to_set. split.
  - intros Hk. apply H2 in Hk. apply elem_of_union in Hk as [Hk|Hk].
    + by apply elem_of_dom_initial_content in Hk as [? _].
    + by apply elem_of_list_to_set in Hk.
  - intros Hk. destruct (decide (k ∈ l.*1)) as [Hin|Hin].
    + apply list_elem_of_fmap in Hin as ([k0 v] & -> & Hin).
      by apply (H3 _ Hin).
    + apply H1. by apply elem_of_dom_initial_content.
Qed.

(** The last entry that names an attribute gives it its value. *)
Lemma assign_content_last l1 l2 c c' k v :
  assign_content db c (l1 ++ (k, v) :: l2) = Some c' →
  k ∈ jsonAttributes →
  (∀ kv, kv ∈ l2 → written_attribute kv.1 ≠ Some k) →
  c' !! k = Some v.
Proof.
  intros H Hk Hall. revert c H.
  induction l1 as [|kv l1 IH]; intros c; simpl.
  - rewrite assign_content_cons, set_content_attribute by done. simpl.
    intros H. rewrite (assign_content_other l2 _ c' k H Hall).
    apply lookup_insert_eq.
  - rewrite assign_content_cons.
    destruct (set_content db c kv) as [c1|]; [|done]. simpl. apply IH.
Qed.

(** A dotted key that leads into a JSON attribute no other key writes to
    leaves there what the nested write makes of the value before. *)
Lemma assign_content_nested l1 l2 c c' k v a path :
  assign_content db c (l1 ++ (k, v) :: l2) = Some c' →
  k ∉ jsonAttributes →
  split_dot k = Some (a, path) →
  a ∈ jsonColumns →
  (∀ kv, kv ∈ (l1 ++ l2)%list → written_attribute kv.1 ≠ Some a) →
  c' !! a = nested_write db (c !! a) path v.
Proof.
  intros H Hk Hs Ha Hall. revert c H.
  induction l1 as [|kv l1 IH]; intros c; simpl.
  - rewrite assign_content_cons. unfold set_content at 1. simpl.
    rewrite bool_decide_eq_false_2, Hs, bool_decide_eq_true_2 by done.
    destruct (nested_write db (c !! a) path v) as [new|]; [|done]. simpl.
    intros H. rewrite (assign_content_other l2 _ c' a H).
    + apply lookup_insert_eq.
    + intros kv Hin. by apply Hall.
  - rewrite assign_content_cons.
    destruct (set_content db c kv) as [c1|] eqn:E; [|done]. simpl.
    intros H.
    assert (Hall' : ∀ kv', kv' ∈ (l1 ++ l2)%list →
                           written_attribute kv'.1 ≠ Some a)
      by (intros kv' Hin; apply Hall; by right).
    rewrite (IH Hall' c1 H). f_equal.
    apply (set_content_other c kv c1 a E). apply Hall. left.
Qed.

(** An object whose keys are attributes, each once, is assigned entry by
    entry. *)
Lemma assign_content_attributes l c :
  NoDup l.*1 →
  (∀ kv, kv ∈ l → kv.1 ∈ jsonAttributes) →
  ∃ c', assign_content db c l = Some c'
        ∧ ∀ k, c' !! k = match (list_to_map l : gmap string string) !! k with
                         | Some v => Some v
                         | None => c !! k
                         end.
Proof.
  revert c. induction l as [|[k0 v0] l IH]; intros c Hnd Hall.
  - exists c. split; [done|]. intros k.
    by rewrite list_to_map_nil, lookup_empty.
  - rewrite fmap_cons in Hnd. apply NoDup_cons in Hnd as [Hnot Hnd].
    rewrite assign_content_cons, set_content_attribute by (apply Hall; left).
    simpl.
    destruct (IH (<[k0 := v0]> c) Hnd) as (c' & Hc' & Hl).
    { intros kv Hin. apply Hall. by right. }
    exists c'. split; [done|]. intros k. rewrite Hl.
    destruct (decide (k0 = k)) as [->|Hne].
    + rewrite lookup_insert_eq.
      by rewrite (not_elem_of_list_to_map_1 _ _ Hnot), lookup_insert_eq.
    + by rewrite !lookup_insert_ne by done.
Qed.

(** [toJSON] then [Diagram.create]: the content of a row with the nine
    attributes is copied as it is. *)
Lemma assign_content_toJSON c :
  dom c = list_to_set jsonAttributes →
  assign_content db (initial_content (map_to_list c)) (map_to_list c)
  = Some c.
Proof.
  intros Hc.
  destruct (assign_content_attributes (map_to_list c)
              (initial_content (map_to_list c)))
    as (c' & Hc' & Hl).
  - apply NoDup_fst_map_to_list.
  - intros [k v] Hin. apply elem_of_map_to_list in Hin. simpl.
    apply (elem_of_list_to_set (C := gset string)). rewrite <- Hc.
    apply elem_of_dom. eauto.
  - rewrite Hc'. f_equal. apply map_eq. intros k. rewrite Hl.
    rewrite list_to_map_to_list. destruct (c !! k) eqn:E; [done|].
    apply not_elem_of_dom. rewrite elem_of_dom_initial_content.
    intros [Hk _]. apply (elem_of_list_to_set (C := gset string)) in Hk.
    rewrite <- Hc in Hk. by apply not_elem_of_dom in E.
Qed.

End Content.

(** ** The edit permission of [update] *)

Section EditPermission.

Context {db : Database}.

Variables (now : Z) (st : Store) (u id : string) (d : Diagram) (body : Body).
Hypothesis Hd : diagrams st !! id = Some d.

Lemma update_unfold :
  DiagramController.update db now st (Some u) id body =
  if negb (may_edit st u id d) then (st, NoEditPermission)
  else if truthy (expectedVersion body)
          && strict_neq (version d) (expectedVersion body)
  then (st, conflict_of id d)
  else if write_accepted db now st u id d body
  then committed db now st u id d body
  else (st, ServerError).
Proof using Hd.
  unfold DiagramController.update, may_edit. rewrite Hd.
  destruct (bool_decide (userId d = u)); simpl; [done|].
  destruct (bool_decide (is_Some _)); done.
Qed.

Lemma update_forbidden_iff :
  (DiagramController.update db now st (Some u) id body).2 = NoEditPermission
  ↔ may_edit st u id d = false.
Proof using Hd.
  rewrite update_unfold. destruct (may_edit st u id d); simpl; [|done].
  split; [|done]. destruct (_ && _); [done|].
  by destruct (write_accepted _ _ _ _ _ _ _).
Qed.

Lemma may_edit_spec_intro :
  Spec.canMutatePayload (Spec.effectivePermission st u id d) = true →
  may_edit st u id d = true.
Proof using Type.
  clear Hd.
  unfold Spec.effectivePermission, may_edit.
  destruct (decide (u = userId d)) as [->|Hne].
  - rewrite !bool_decide_eq_true_2 by done. done.
  - rewrite (bool_decide_eq_false_2 (u = _)) by done.
    rewrite (bool_decide_eq_false_2 (userId d = u)) by done. simpl.
    destruct (findOne (share_of id u) _) as [s|] eqn:E; [|done].
    intros Hl. apply bool_decide_eq_true.
    apply (find_edit_share_intro _ _ _ s E).
    destruct (permissionLevel s); simpl in Hl; [done|set_solver..].
Qed.

Lemma may_edit_spec :
  shares_unique st →
  may_edit st u id d
  = Spec.canMutatePayload (Spec.effectivePermission st u id d).
Proof using Type.
  clear Hd.
  intros Hnd. unfold Spec.effectivePermission, may_edit.
  destruct (decide (u = userId d)) as [->|Hne].
  - rewrite !bool_decide_eq_true_2 by done. done.
  - rewrite (bool_decide_eq_false_2 (u = _)) by done.
    rewrite (bool_decide_eq_false_2 (userId d = u)) by done. simpl.
    pose proof (find_edit_share id u _ Hnd) as Hiff.
    destruct (findOne (share_of id u) _) as [s|] eqn:E.
    + destruct (permissionLevel s) eqn:El; simpl.
      * apply bool_decide_eq_false. intros Hs. apply Hiff in Hs.
        destruct Hs as (s' & [= <-] & Hl). rewrite El in Hl. set_solver.
      * apply bool_decide_eq_true, Hiff. exists s. rewrite El. set_solver.
      * apply bool_decide_eq_true, Hiff. exists s. rewrite El. set_solver.
    + apply bool_decide_eq_false. intros Hs. apply Hiff in Hs.
      by destruct Hs as (s' & ? & _).
Qed.

End EditPermission.

(** ** Optimistic versioning in [update] *)

Lemma shares_unique_editor : shares_unique Sample.st_editor.
Proof. unfold shares_unique. vm_compute. repeat constructor; set_solver. Qed.

Lemma string_eqb_empty_false s : s ≠ "" → String.eqb s "" = false.
Proof. intros H. by apply String.eqb_neq. Qed.

(** C1, as amended. For an [update] of an existing diagram by an actor with
    mutation rights: a request carrying a non-zero [expectedVersion] (or a
    non-empty string) that is not the stored version is answered with the
    conflict and nothing is written; a request whose [expectedVersion] is
    the stored version, and likewise a request carrying no
    [expectedVersion], which is not compared at all, raises no conflict:
    its row, with the version advanced by one, is written if the write goes
    through (no nested write throws and the database accepts the row), and
    otherwise the answer is 500 and nothing is written. *)
Theorem update_compares_present_expectedVersion {db : Database}
    now st u id d body :
  diagrams st !! id = Some d →
  Spec.canMutatePayload (Spec.effectivePermission st u id d) = true →
  (∀ n, expectedVersion body = Some (JsNumber n) → n ≠ 0 → n ≠ version d →
     DiagramController.update db now st (Some u) id body
     = (st, conflict_of id d))
  ∧ (∀ s, expectedVersion body = Some (JsString s) → s ≠ "" →
     DiagramController.update db now st (Some u) id body
     = (st, conflict_of id d))
  ∧ (expectedVersion body = Some (JsNumber (version d))
     ∨ expectedVersion body = None →
     (write_accepted db now st u id d body = true →
      DiagramController.update db now st (Some u) id body
      = committed db now st u id d body)
     ∧ (write_accepted db now st u id d body = false →
        DiagramController.update db now st (Some u) id body
        = (st, ServerError)))
  ∧ version (updated_row db now u d body) = version d + 1.
Proof.
  intros Hd Hp. rewrite (update_unfold now st u id d body Hd).
  rewrite (may_edit_spec_intro st u id d Hp). simpl.
  split; [|split; [|split; [|done]]].
  - intros n -> Hn0 Hn. simpl.
    rewrite (proj2 (Z.eqb_neq n 0)) by done.
    rewrite (proj2 (Z.eqb_neq (version d) n)) by done. done.
  - intros s -> Hs. simpl. by rewrite string_eqb_empty_false.
  - assert (E : truthy (expectedVersion body)
                && strict_neq (version d) (expectedVersion body) = false
                → ∀ b, write_accepted db now st u id d body = b →
                  (if truthy (expectedVersion body)
                      && strict_neq (version d) (expectedVersion body)
                   then (st, conflict_of id d)
                   else if write_accepted db now st u id d body
                        then committed db now st u id d body
                        else (st, ServerError))
                  = if b then committed db now st u id d body
                    else (st, ServerError)).
    { intros -> b ->. done. }
    intros He.
    assert (Hno : truthy (expectedVersion body)
                  && strict_neq (version d) (expectedVersion body) = false).
    { destruct He as [-> | ->]; [|done]. simpl.
      rewrite Z.eqb_refl. simpl. apply andb_false_r. }
    split; intros Hw; exact (E Hno _ Hw).
Qed.

Lemma update_compares_present_expectedVersion_witness :
  diagrams Sample.st_editor !! "d1"
    = Some (Diagram_update Sample.db Sample.d1 (isSharedOnly true))
  ∧ DiagramController.update Sample.db 200 Sample.st_editor (Some "bob") "d1"
      (Sample.rename (Some (JsNumber 7)) "mine")
    = (Sample.st_editor,
       conflict_of "d1"
         (Diagram_update Sample.db Sample.d1 (isSharedOnly true))).
Proof.
  split; [vm_compute; reflexivity|].
  refine (proj1 (update_compares_present_expectedVersion 200 Sample.st_editor
                   "bob" "d1"
                     (Diagram_update Sample.db Sample.d1 (isSharedOnly true))
                   (Sample.rename (Some (JsNumber 7)) "mine") _ _)
            7 eq_refl _ _);
    [vm_compute; reflexivity | vm_compute; reflexivity | discriminate
    | vm_compute; discriminate].
Defined.

(** C1, as stated, fails: a body without [expectedVersion] is written
    although nothing was compared. *)
Lemma update_without_expectedVersion_is_written : ¬ update_always_compares.
Proof.
  intros H.
  specialize (H Sample.db 200 Sample.st1 "alice" "d1" Sample.d1
                (Sample.rename None "x")).
  assert (E : (DiagramController.update Sample.db 200 Sample.st1
                 (Some "alice") "d1"
                 (Sample.rename None "x")).2
              = Updated "d1" (updated_row Sample.db 200 "alice" Sample.d1
                                (Sample.rename None "x")))
    by (vm_compute; reflexivity).
  rewrite H in E; [discriminate E | vm_compute; reflexivity
                   | vm_compute; reflexivity | discriminate].
Qed.

(** The write is refused when the body names a [userId] that is no user,
    or a [database] that does not fit its column: the answer is 500 and
    the store is as it was. *)
Example update_refused_by_database :
  DiagramController.update Sample.db 200 Sample.st_editor (Some "bob") "d1"
    (Sample.takeover (Some (JsNumber 1)) "dave")
  = (Sample.st_editor, ServerError)
  ∧ DiagramController.update Sample.db 200 Sample.st_editor (Some "bob") "d1"
      {| expectedVersion := None;
         diagramData :=
           {| v_id := None; v_userId := None; v_name := None;
              v_database := Some (Sample.long_name 51); v_content := [];
              v_gistId := None; v_loadedFromGistId := None;
              v_lastModified := None; v_lastModifiedBy := None;
              v_version := None; v_isShared := None |} |}
    = (Sample.st_editor, ServerError).
Proof. split; vm_compute; reflexivity. Qed.

(** C7. When [update] answers 409, the store is exactly what it was and
    the answer is built from the stored row, unmodified: its [version],
    [lastModified] and [lastModifiedBy], and as [data] the whole row, that
    is its key, [userId], [name], [database], every entry of its content,
    the gist ids, [lastModified], [lastModifiedBy], [version] and
    [isShared]. A 409 arises only from a present [expectedVersion] that
    differs from the stored version. *)
Theorem update_conflict_carries_current {db : Database}
    now st reqUserId id body st' r :
  DiagramController.update db now st reqUserId id body = (st', r) →
  status r = 409 →
  st' = st
  ∧ ∃ d, diagrams st !! id = Some d
         ∧ r = ConflictDetected
                 {| c_version := version d;
                    c_lastModified := lastModified d;
                    c_lastModifiedBy := lastModifiedBy d;
                    c_data :=
                      {| v_id := Some id;
                         v_userId := Some (userId d);
                         v_name := Some (name d);
                         v_database := Some (database d);
                         v_content := map_to_list (content d);
                         v_gistId := Some (gistId d);
                         v_loadedFromGistId := Some (loadedFromGistId d);
                         v_lastModified := Some (lastModified d);
                         v_lastModifiedBy := Some (lastModifiedBy d);
                         v_version := Some (version d);
                         v_isShared := Some (isShared d) |} |}
         ∧ expectedVersion body ≠ None
         ∧ expectedVersion body ≠ Some (JsNumber (version d)).
Proof.
  destruct reqUserId as [u|]; [|intros [= <- <-]; done].
  destruct (diagrams st !! id) as [d|] eqn:Hd.
  - rewrite (update_unfold now st u id d body Hd).
    destruct (negb _); [intros [= <- <-]; done|].
    destruct (truthy _) eqn:Ht; simpl.
    + destruct (strict_neq _ _) eqn:Hn.
      * intros [= <- <-] _. split; [done|]. exists d. repeat split.
        -- intros E. by rewrite E in Ht.
        -- intros E. rewrite E in Hn. simpl in Hn.
           by rewrite Z.eqb_refl in Hn.
      * destruct (write_accepted _ _ _ _ _ _ _); intros [= <- <-]; done.
    + destruct (write_accepted _ _ _ _ _ _ _); intros [= <- <-]; done.
  - unfold DiagramController.update. rewrite Hd. intros [= <- <-]; done.
Qed.

Lemma update_conflict_carries_current_witness :
  ∃ r, DiagramController.update Sample.db 200 Sample.st_editor (Some "bob") "d1"
         (Sample.rename (Some (JsNumber 7)) "mine") = (Sample.st_editor, r)
       ∧ status r = 409
       ∧ ∃ d, diagrams Sample.st_editor !! "d1" = Some d
              ∧ r = conflict_of "d1" d.
Proof.
  eexists. split; [vm_compute; reflexivity|]. split; [reflexivity|].
  destruct (update_conflict_carries_current (db := Sample.db) 200
              Sample.st_editor (Some "bob")
              "d1" (Sample.rename (Some (JsNumber 7)) "mine") _ _
              eq_refl eq_refl) as (_ & d & Hd & Hr & _).
  exists d. split; [exact Hd | exact Hr].
Defined.

(** ** Who may mutate *)

(** C6. [update] of an existing diagram answers 403 (No edit permission)
    if and only if the actor's effective permission is neither editor nor
    owner; in particular never for the creator, nor for a grantee whose
    share entry has the editor or owner level. The share table is assumed
    to satisfy its unique index, as it does in every reachable store. *)
Theorem update_forbidden_iff_not_editor_or_owner {db : Database}
    now st u id d body :
  shares_unique st →
  diagrams st !! id = Some d →
  let r := (DiagramController.update db now st (Some u) id body).2 in
  (r = NoEditPermission
     ↔ Spec.canMutatePayload (Spec.effectivePermission st u id d) = false)
  ∧ (status r = 403 ↔ r = NoEditPermission)
  ∧ (u = userId d → r ≠ NoEditPermission)
  ∧ (∀ s, findOne (share_of id u) (diagram_shares st) = Some s →
          permissionLevel s ∈ [EDITOR; OWNER] → r ≠ NoEditPermission).
Proof.
  intros Hnd Hd r.
  assert (Hiff : r = NoEditPermission
                 ↔ Spec.canMutatePayload (Spec.effectivePermission st u id d)
                   = false).
  { unfold r. rewrite (update_forbidden_iff now st u id d body Hd).
    by rewrite (may_edit_spec st u id d Hnd). }
  split; [exact Hiff|]. split; [|split].
  - unfold r. rewrite (update_unfold now st u id d body Hd).
    destruct (negb _); simpl; [done|].
    destruct (_ && _); [simpl; split; intros; done|].
    destruct (write_accepted _ _ _ _ _ _ _); simpl; split; intros; done.
  - intros -> Hr. apply Hiff in Hr. unfold Spec.effectivePermission in Hr.
    by rewrite bool_decide_eq_true_2 in Hr.
  - intros s Hs Hl Hr. apply Hiff in Hr.
    unfold Spec.effectivePermission in Hr. rewrite Hs in Hr.
    case_bool_decide; [done|].
    destruct (permissionLevel s); [set_solver|done..].
Qed.

Lemma update_forbidden_iff_not_editor_or_owner_witness :
  shares_unique Sample.st_editor
  ∧ (DiagramController.update Sample.db 200 Sample.st_editor (Some "carol") "d1"
       (Sample.rename (Some (JsNumber 1)) "x")).2 = NoEditPermission
  ∧ (DiagramController.update Sample.db 200 Sample.st_editor (Some "bob") "d1"
       (Sample.rename (Some (JsNumber 1)) "x")).2 ≠ NoEditPermission.
Proof.
  split; [exact shares_unique_editor|]. split.
  - apply (proj1 (update_forbidden_iff_not_editor_or_owner 200
                    Sample.st_editor "carol" "d1"
                    (Diagram_update Sample.db Sample.d1 (isSharedOnly true))
                    (Sample.rename (Some (JsNumber 1)) "x")
                    shares_unique_editor eq_refl)).
    vm_compute. reflexivity.
  - apply (proj2 (proj2 (proj2
             (update_forbidden_iff_not_editor_or_owner 200
                Sample.st_editor "bob" "d1"
                (Diagram_update Sample.db Sample.d1 (isSharedOnly true))
                (Sample.rename (Some (JsNumber 1)) "x")
                shares_unique_editor eq_refl)))
             (mkDiagramShare "d1" "bob" "alice" EDITOR));
      [vm_compute; reflexivity | set_solver].
Defined.

(** ** What [update] writes *)

Lemma update_success_row {db : Database} now st reqUserId id body st' d' :
  DiagramController.update db now st reqUserId id body = (st', Updated id d') →
  ∃ u d, reqUserId = Some u ∧ diagrams st !! id = Some d
         ∧ d' = updated_row db now u d body
         ∧ st' = set_diagrams st (<[id := d']> (diagrams st)).
Proof.
  destruct reqUserId as [u|]; [|intros [= ]].
  destruct (diagrams st !! id) as [d|] eqn:Hd.
  - rewrite (update_unfold now st u id d body Hd).
    destruct (negb _); [intros [=]|].
    destruct (_ && _); [intros [=]|].
    destruct (write_accepted _ _ _ _ _ _ _); [|intros [=]].
    unfold committed. intros [= <- <-]. eauto 10.
  - unfold DiagramController.update. rewrite Hd. intros [=].
Qed.

(** C5: failing input. bob holds an editor share on alice's diagram d1
    and sends [{ userId: "bob", expectedVersion: 1 }]: the request is
    accepted and the stored [userId] of d1 becomes bob. The spread
    [...diagramData] of [update] carries [userId] into the write; only
    [version], [lastModifiedBy] and [lastModified] are pinned after it. *)
Theorem update_reassigns_owner :
  ∃ st' d',
    userId <$> diagrams Sample.st_editor !! "d1" = Some "alice"
    ∧ DiagramController.update Sample.db 200 Sample.st_editor (Some "bob") "d1"
        (Sample.takeover (Some (JsNumber 1)) "bob") = (st', Updated "d1" d')
    ∧ diagrams st' !! "d1" = Some d'
    ∧ userId d' = "bob".
Proof.
  eexists _, _. split; [vm_compute; reflexivity|].
  split; [vm_compute; reflexivity|].
  split; vm_compute; reflexivity.
Qed.

(** ** The ownership query of the share and delete handlers *)

Section Ownership.

Context {db : Database}.

Variables (st : Store) (u id : string) (d : Diagram).
Hypothesis Hd : diagrams st !! id = Some d.

Lemma findOwned_creator : userId d = u → findOwned st id u = Some d.
Proof using Hd. intros Hu. by apply findOwned_Some. Qed.

Lemma findOwned_other : userId d ≠ u → findOwned st id u = None.
Proof using Hd.
  intros Hu. apply findOwned_None. intros d' Hd'. congruence.
Qed.

Lemma shareDiagram_refused_iff w l :
  (DiagramController.shareDiagram db st (Some u) id w l).2
    = DiagramNotFoundOrAccessDenied ↔ userId d ≠ u.
Proof using Hd.
  unfold DiagramController.shareDiagram.
  destruct (decide (userId d = u)) as [Hu|Hu].
  - rewrite (findOwned_creator Hu). destruct (negb _); [naive_solver|].
    destruct (findOne _ _); naive_solver.
  - rewrite (findOwned_other Hu). naive_solver.
Qed.

Lemma updateShare_refused_iff w l :
  (DiagramController.updateShare st (Some u) id w l).2
    = DiagramNotFoundOrAccessDenied ↔ userId d ≠ u.
Proof using Hd.
  unfold DiagramController.updateShare.
  destruct (decide (userId d = u)) as [Hu|Hu].
  - rewrite (findOwned_creator Hu). destruct (findOne _ _); naive_solver.
  - rewrite (findOwned_other Hu). naive_solver.
Qed.

Lemma revokeShare_refused_iff w :
  (DiagramController.revokeShare db st (Some u) id w).2
    = DiagramNotFoundOrAccessDenied ↔ userId d ≠ u.
Proof using Hd.
  unfold DiagramController.revokeShare.
  destruct (decide (userId d = u)) as [Hu|Hu].
  - rewrite (findOwned_creator Hu). destruct (Nat.eqb _ _); naive_solver.
  - rewrite (findOwned_other Hu). naive_solver.
Qed.

End Ownership.

Lemma shareDiagram_never_403 {db : Database} st ru id w l :
  status (DiagramController.shareDiagram db st ru id w l).2 ≠ 403.
Proof.
  unfold DiagramController.shareDiagram.
  destruct ru; [|done]. destruct (findOwned _ _ _); [|done].
  destruct (negb _); [done|]. destruct (findOne _ _); done.
Qed.

Lemma updateShare_never_403 st ru id w l :
  status (DiagramController.updateShare st ru id w l).2 ≠ 403.
Proof.
  unfold DiagramController.updateShare.
  destruct ru; [|done]. destruct (findOwned _ _ _); [|done].
  destruct (findOne _ _); done.
Qed.

Lemma revokeShare_never_403 {db : Database} st ru id w :
  status (DiagramController.revokeShare db st ru id w).2 ≠ 403.
Proof.
  unfold DiagramController.revokeShare.
  destruct ru; [|done]. destruct (findOwned _ _ _); [|done].
  destruct (Nat.eqb _ _); done.
Qed.

(** C2, as amended. On an existing diagram, each of [shareDiagram]
    (grant), [updateShare] (updateLevel) and [revokeShare] (revoke) refuses
    the requester exactly when the requester is not the diagram's creator
    ([userId]); the refusal is the 404 "Diagram not found or access
    denied", never a 403, and it leaves the store as it was. A share entry,
    of whatever level, plays no part. *)
Theorem share_management_refused_iff_not_creator {db : Database} st u id d w l :
  diagrams st !! id = Some d →
  (refused (DiagramController.shareDiagram db st (Some u) id w l).2
     ↔ userId d ≠ u)
  ∧ (refused (DiagramController.updateShare st (Some u) id w l).2
     ↔ userId d ≠ u)
  ∧ (refused (DiagramController.revokeShare db st (Some u) id w).2
     ↔ userId d ≠ u)
  ∧ (userId d ≠ u →
     DiagramController.shareDiagram db st (Some u) id w l
       = (st, DiagramNotFoundOrAccessDenied)
     ∧ DiagramController.updateShare st (Some u) id w l
       = (st, DiagramNotFoundOrAccessDenied)
     ∧ DiagramController.revokeShare db st (Some u) id w
       = (st, DiagramNotFoundOrAccessDenied)).
Proof.
  intros Hd. unfold refused. repeat split.
  - intros [H|H]; [by apply shareDiagram_never_403 in H|].
    by apply (shareDiagram_refused_iff (db := db) st u id d Hd w l).
  - intros H. right.
    by apply (shareDiagram_refused_iff (db := db) st u id d Hd w l).
  - intros [H|H]; [by apply updateShare_never_403 in H|].
    by apply (updateShare_refused_iff st u id d Hd w l).
  - intros H. right. by apply (updateShare_refused_iff st u id d Hd w l).
  - intros [H|H]; [by apply revokeShare_never_403 in H|].
    by apply (revokeShare_refused_iff (db := db) st u id d Hd w).
  - intros H. right.
    by apply (revokeShare_refused_iff (db := db) st u id d Hd w).
  - unfold DiagramController.shareDiagram.
    by rewrite (findOwned_other st u id d Hd).
  - unfold DiagramController.updateShare.
    by rewrite (findOwned_other st u id d Hd).
  - unfold DiagramController.revokeShare.
    by rewrite (findOwned_other st u id d Hd).
Qed.

Lemma share_management_refused_iff_not_creator_witness :
  diagrams Sample.st_owner !! "d1"
    = Some (Diagram_update Sample.db Sample.d1 (isSharedOnly true))
  ∧ refused (DiagramController.shareDiagram Sample.db Sample.st_owner
               (Some "bob")
               "d1" "carol" VIEWER).2.
Proof.
  split; [vm_compute; reflexivity|].
  apply (proj1 (share_management_refused_iff_not_creator Sample.st_owner
                  "bob" "d1"
                    (Diagram_update Sample.db Sample.d1 (isSharedOnly true))
                  "carol" VIEWER eq_refl)).
  vm_compute. discriminate.
Defined.

(** C2, as stated, fails: bob holds an owner-level share entry on d1, so
    his effective permission is [owner], and yet his grant is refused. *)
Lemma owner_share_cannot_manage_shares : ¬ share_management_by_effective_owner.
Proof.
  intros H.
  destruct (H Sample.db Sample.st_owner "bob" "d1"
              (Diagram_update Sample.db Sample.d1 (isSharedOnly true))
              "carol" VIEWER
              eq_refl) as [[Hgrant _] _].
  assert (E : Spec.canManageShares
                (Spec.effectivePermission Sample.st_owner "bob" "d1"
                   (Diagram_update Sample.db Sample.d1 (isSharedOnly true)))
              = false)
    by (apply Hgrant; right; vm_compute; reflexivity).
  vm_compute in E. discriminate E.
Qed.

(** ** [delete] *)

Lemma elem_of_destroy (p : DiagramShare → bool) l s :
  s ∈ destroy p l ↔ s ∈ l ∧ p s = false.
Proof.
  unfold destroy. rewrite !list_elem_of_In, filter_In, negb_true_iff.
  done.
Qed.

(** C4, as amended. [delete] answers Deleted exactly when the diagram
    exists and the requester is its creator; the diagram and its share
    entries are then gone. In every other case (no such diagram, or any
    other requester, whatever share entry that requester holds) the
    answer is the one 404 "Diagram not found or access denied" and nothing
    changes; there is no separate 403. *)
Theorem delete_only_by_creator st u id :
  let st' := (DiagramController.delete st (Some u) id).1 in
  let r := (DiagramController.delete st (Some u) id).2 in
  (r = Deleted ↔ ∃ d, diagrams st !! id = Some d ∧ userId d = u)
  ∧ (r = Deleted →
     diagrams st' !! id = None
     ∧ ∀ s, s ∈ diagram_shares st' ↔ s ∈ diagram_shares st ∧ diagramId s ≠ id)
  ∧ (r ≠ Deleted → r = DiagramNotFoundOrAccessDenied ∧ st' = st)
  ∧ status r ≠ 403.
Proof.
  unfold DiagramController.delete.
  destruct (findOwned st id u) as [d|] eqn:E; simpl.
  - apply findOwned_Some in E. split; [split; eauto|].
    split; [|done]. intros _. split; [apply lookup_delete_eq|].
    intros s. rewrite elem_of_destroy. unfold share_on.
    by rewrite bool_decide_eq_false.
  - rewrite findOwned_None in E.
    split; [split; [done | intros (d & Hd & Hu); by destruct (E d Hd)] | done].
Qed.

(** C4, as stated, fails: bob asks to delete alice's diagram d1, which
    exists, and the answer is a 404, not a 403. *)
Lemma delete_by_other_is_404 : ¬ delete_distinguishes_forbidden.
Proof.
  intros H. destruct (H Sample.st1 "bob" "d1") as (_ & _ & H404).
  assert (E : diagrams Sample.st1 !! "d1" = None)
    by (apply H404; vm_compute; reflexivity).
  vm_compute in E. discriminate E.
Qed.

(** ** What every reachable store satisfies *)

Local Ltac unfold_handlers :=
  unfold handle, DiagramController.getById, DiagramController.create,
    DiagramController.update, DiagramController.delete,
    DiagramController.getVersion, DiagramController.duplicate,
    DiagramController.sync, DiagramController.shareDiagram,
    DiagramController.getShares, DiagramController.updateShare,
    DiagramController.revokeShare.

Lemma Diagram_create_Some {db : Database} st v uuid now key d :
  Diagram_create db st v uuid now = Some (key, d) →
  diagrams st !! key = None
  ∧ Diagram_build db v now = Some d
  ∧ accepts db st key d = true
  ∧ key = default uuid (v_id v).
Proof.
  unfold Diagram_create. destruct (Diagram_build db v now) as [d0|]; [|done].
  destruct (diagrams st !! default uuid (v_id v)) eqn:E; [done|].
  destruct (accepts db st _ d0) eqn:Ha; [|done].
  by intros [= <- <-].
Qed.


Lemma row_ok_build {db : Database} v now u d :
  Diagram_build db v now = Some d →
  v_version v = Some 1 →
  v_lastModifiedBy v = Some (Some u) →
  row_ok d.
Proof.
  unfold Diagram_build. destruct (v_userId v); [|done].
  destruct (assign_content db _ _) as [c|] eqn:Hc; [|done].
  intros [= <-] Hv Hm. unfold row_ok. simpl. rewrite Hv, Hm. simpl.
  split; [done|]. split; [eauto|].
  apply (assign_content_initial db _ _ Hc).
Qed.

Lemma row_ok_Diagram_update {db : Database} d v n u :
  row_ok d →
  (v_version v = None ∧ v_lastModifiedBy v = None
   ∨ v_version v = Some n ∧ 1 ≤ n ∧ v_lastModifiedBy v = Some (Some u)) →
  row_ok (Diagram_update db d v).
Proof.
  intros (Hv & Hm & Hc) H. unfold row_ok. simpl.
  split; [|split].
  - destruct H as [[-> _]|(-> & ? & _)]; done.
  - destruct H as [[_ ->]|(_ & _ & ->)]; simpl; eauto.
  - destruct (assign_content db _ _) as [c|] eqn:E; [|done]. simpl.
    by apply (assign_content_dom db _ _ _ E).
Qed.

Lemma handle_row_ok {db : Database} now uuid st reqUserId r :
  (∀ id d, diagrams st !! id = Some d → row_ok d) →
  ∀ id d, diagrams (handle db now uuid st reqUserId r).1 !! id = Some d →
          row_ok d.
Proof.
  intros Hall id d.
  assert (Hins : ∀ key d0, row_ok d0 →
            <[key := d0]> (diagrams st) !! id = Some d → row_ok d).
  { intros key d0 Hd0 Hl. destruct (decide (key = id)) as [->|Hne].
    - rewrite lookup_insert_eq in Hl. by injection Hl as <-.
    - rewrite lookup_insert_ne in Hl by done. eauto. }
  destruct reqUserId as [u|]; destruct r; unfold_handlers;
    repeat case_match; simpl; eauto.
  all: lazymatch goal with
       | |- base.delete ?k _ !! _ = _ → _ =>
           intros Hl; destruct (decide (k = id)) as [->|Hne];
           [by rewrite lookup_delete_eq in Hl
           |rewrite lookup_delete_ne in Hl by done; eauto]
       | H : Diagram_create _ _ _ _ _ = Some _ |- _ =>
           apply Hins; apply Diagram_create_Some in H as (_ & Hb & _);
           by eapply (row_ok_build _ _ u)
       | H : findOwned _ _ _ = Some _ |- _ =>
           apply Hins; apply findOwned_Some in H as [Hd _];
           eapply (row_ok_Diagram_update _ _ 1 ""); [eauto | by left]
       | H : diagrams _ !! _ = Some _ |- _ =>
           apply Hins; eapply (row_ok_Diagram_update _ _ _ u); [eauto|];
           right; simpl; split; [done|]; split; [|done];
           destruct (Hall _ _ H) as [? _]; lia
       end.
Qed.

Lemma update_found_ref p lvl l s :
  s ∈ update_found p lvl l → ∃ s', s' ∈ l ∧ diagramId s = diagramId s'.
Proof.
  induction l as [|a l IH]; simpl; [intros H; inversion H|].
  destruct (p a).
  - intros [->|Hs]%elem_of_cons.
    + exists a. split; [left | done].
    + exists s. split; [by right | done].
  - intros [->|Hs]%elem_of_cons.
    + exists a. split; [left | done].
    + destruct (IH Hs) as (s' & Hs' & E). exists s'. split; [by right | done].
Qed.

Lemma handle_shares_ref {db : Database} now uuid st reqUserId r :
  shares_ref st → shares_ref (handle db now uuid st reqUserId r).1.
Proof.
  intros Href. unfold shares_ref in *.
  assert (Hins : ∀ key d0 s, s ∈ diagram_shares st →
            is_Some (<[key := d0]> (diagrams st) !! diagramId s)).
  { intros key d0 s Hs. apply lookup_insert_is_Some'. right. eauto. }
  destruct reqUserId as [u|]; destruct r; unfold_handlers;
    repeat case_match; simpl; eauto.
  - intros s [Hs Hp]%elem_of_destroy. unfold share_on in Hp.
    apply bool_decide_eq_false in Hp.
    rewrite lookup_delete_ne by done. eauto.
  - intros s [Hs| ->%list_elem_of_singleton]%elem_of_app; [eauto|].
    simpl. rewrite lookup_insert_eq. eauto.
  - intros s (s' & Hs' & ->)%update_found_ref. eauto.
  - intros s [Hs _]%elem_of_destroy. eauto.
  - intros s [Hs _]%elem_of_destroy. eauto.
Qed.

Lemma reachable_refs_and_rows {db : Database} st :
  reachable db st →
  shares_ref st ∧ ∀ id d, diagrams st !! id = Some d → row_ok d.
Proof.
  induction 1 as [us|now uuid st ru r _ [IH1 IH2]].
  - split; [intros s Hs; inversion Hs | intros id d Hd; done].
  - split; [by apply handle_shares_ref | by apply handle_row_ok].
Qed.

Lemma reachable_st_editor : reachable Sample.db Sample.st_editor.
Proof.
  apply (reachable_step Sample.db 0 "" Sample.st1 (Some "alice")
           (ShareDiagram "d1" "bob" EDITOR)).
  apply (reachable_step Sample.db 100 "d1" Sample.st0 (Some "alice")
           (Create Sample.noValues)).
  apply reachable_init.
Qed.


(** ** Operations without a permission check *)

Lemma duplicate_unfold {db : Database} now uuid st u id d :
  diagrams st !! id = Some d →
  dom (content d) = list_to_set jsonAttributes →
  diagrams st !! uuid = None →
  let copy := {| userId := u;
                 name := name d +:+ " (Copy)";
                 database := database d;
                 content := content d;
                 gistId := None;
                 loadedFromGistId := gistId d;
                 lastModified := lastModified d;
                 lastModifiedBy := Some u;
                 version := 1;
                 isShared := isShared d |} in
  DiagramController.duplicate db now uuid st (Some u) id
  = if accepts db st uuid copy
    then (set_diagrams st (<[uuid := copy]> (diagrams st)), Created uuid copy)
    else (st, ServerError).
Proof.
  intros Hd Hdom Hfresh.
  unfold DiagramController.duplicate, Diagram_create, Diagram_build.
  rewrite Hd. cbn [v_userId v_content v_id toJSON default].
  rewrite (assign_content_toJSON db _ Hdom), Hfresh. simpl.
  by destruct (accepts db st uuid _).
Qed.




(** ** The version column *)





(** ** Revoking the last share *)

Lemma filter_filter_comm (p q : DiagramShare → bool) l :
  List.filter p (List.filter q l) = List.filter q (List.filter p l).
Proof.
  induction l as [|a l IH]; [done|]. simpl.
  destruct (q a) eqn:Hq, (p a) eqn:Hp; simpl; rewrite ?Hq, ?Hp, ?IH; done.
Qed.

Lemma filter_nil_existsb (p : DiagramShare → bool) l :
  List.filter p l = [] → existsb p l = false.
Proof.
  induction l as [|a l IH]; [done|]. simpl.
  destruct (p a); [done|]. exact IH.
Qed.

Lemma find_destroy_same (p : DiagramShare → bool) l :
  findOne p (destroy p l) = None.
Proof.
  unfold findOne. apply find_none_iff. intros s Hs.
  by apply elem_of_destroy in Hs as [_ ?].
Qed.

Lemma edit_share_of_share_of id u s :
  edit_share_of id u s = true → share_of id u s = true.
Proof. unfold edit_share_of. rewrite andb_true_iff. tauto. Qed.

Section RevokeLast.

Context {db : Database}.

Variables (st : Store) (id : string) (d : Diagram) (e : DiagramShare).
Hypothesis Hd : diagrams st !! id = Some d.
Hypothesis Hone : List.filter (share_on id) (diagram_shares st) = [e].

Lemma only_share_matches : share_of id (sharedWithUserId e) e = true.
Proof using Hone.
  assert (Hin : In e (List.filter (share_on id) (diagram_shares st)))
    by (rewrite Hone; left; done).
  apply filter_In in Hin as [_ Hon]. unfold share_on in Hon.
  unfold share_of. rewrite Hon. simpl. by apply bool_decide_eq_true.
Qed.

Lemma only_share_counted :
  count (share_of id (sharedWithUserId e)) (diagram_shares st) ≠ 0%nat.
Proof using Hone.
  assert (Hin : In e (List.filter (share_on id) (diagram_shares st)))
    by (rewrite Hone; left; done).
  apply filter_In in Hin as [Hin _].
  assert (Hin' : In e (List.filter (share_of id (sharedWithUserId e))
                         (diagram_shares st))).
  { apply filter_In. split; [done | apply only_share_matches]. }
  unfold count.
  destruct (List.filter (share_of id (sharedWithUserId e)) (diagram_shares st));
    [destruct Hin' | done].
Qed.

Lemma none_remains :
  List.filter (share_on id)
    (destroy (share_of id (sharedWithUserId e)) (diagram_shares st)) = [].
Proof using Hone.
  unfold destroy. rewrite filter_filter_comm, Hone. simpl.
  by rewrite only_share_matches.
Qed.

Lemma revokeShare_last :
  DiagramController.revokeShare db st (Some (userId d)) id (sharedWithUserId e)
  = (after_revoke db st id d (sharedWithUserId e), ShareRevoked).
Proof using Hd Hone.
  unfold DiagramController.revokeShare.
  rewrite (findOwned_creator st (userId d) id d Hd eq_refl).
  destruct (Nat.eqb_spec
              (count (share_of id (sharedWithUserId e)) (diagram_shares st)) 0)
    as [E|_]; [by apply only_share_counted in E|].
  unfold count at 1. by rewrite none_remains.
Qed.

End RevokeLast.

(** C9, as amended. After the creator revokes the only remaining share
    entry of a diagram, the diagram's [isShared] flag is false and no
    share entry references it; and if the former grantee is not the
    diagram's creator, the former grantee's effective permission is none
    and an [update] by the former grantee is answered 403 with nothing
    written. *)
Theorem revoke_last_share {db : Database} now st id d e body :
  diagrams st !! id = Some d →
  List.filter (share_on id) (diagram_shares st) = [e] →
  let grantee := sharedWithUserId e in
  ∃ st' d',
    DiagramController.revokeShare db st (Some (userId d)) id grantee
      = (st', ShareRevoked)
    ∧ diagrams st' !! id = Some d'
    ∧ isShared d' = false
    ∧ Spec.shared st' id = false
    ∧ (grantee ≠ userId d →
       Spec.effectivePermission st' grantee id d' = Spec.none
       ∧ DiagramController.update db now st' (Some grantee) id body
         = (st', NoEditPermission)).
Proof.
  intros Hd Hone grantee.
  exists (after_revoke db st id d grantee),
    (Diagram_update db d (isSharedOnly false)).
  split; [by apply revokeShare_last|].
  assert (Hd' : diagrams (after_revoke db st id d grantee) !! id
                = Some (Diagram_update db d (isSharedOnly false)))
    by apply lookup_insert_eq.
  split; [exact Hd'|]. split; [done|]. split.
  { apply filter_nil_existsb. by apply none_remains. }
  intros Hne. split.
  - unfold Spec.effectivePermission. simpl.
    rewrite bool_decide_eq_false_2 by done.
    by rewrite find_destroy_same.
  - rewrite (update_unfold now _ grantee id _ body Hd').
    unfold may_edit. simpl.
    rewrite bool_decide_eq_false_2 by done. simpl.
    rewrite bool_decide_eq_false_2; [done|].
    intros [s Hs]. apply find_some_elem in Hs as [Hin Hp].
    apply edit_share_of_share_of in Hp.
    apply elem_of_destroy in Hin as [_ Hin]. congruence.
Qed.

Lemma revoke_last_share_witness :
  diagram_shares Sample.st_editor = [mkDiagramShare "d1" "bob" "alice" EDITOR]
  ∧ ∃ st',
      DiagramController.revokeShare Sample.db Sample.st_editor
        (Some "alice") "d1" "bob"
        = (st', ShareRevoked)
      ∧ DiagramController.update Sample.db 400 st' (Some "bob") "d1"
          (Sample.rename (Some (JsNumber 1)) "x") = (st', NoEditPermission).
Proof.
  split; [vm_compute; reflexivity|].
  destruct (revoke_last_share (db := Sample.db) 400 Sample.st_editor "d1"
              (Diagram_update Sample.db Sample.d1 (isSharedOnly true))
              (mkDiagramShare "d1" "bob" "alice" EDITOR)
              (Sample.rename (Some (JsNumber 1)) "x") eq_refl eq_refl)
    as (st' & d' & Hrev & _ & _ & _ & Hnone).
  exists st'. split; [exact Hrev|].
  apply Hnone. vm_compute. discriminate.
Defined.

(** C9, as stated, fails: alice shares her diagram d1 with herself; once
    that only share is revoked she is still its creator, so her effective
    permission is [owner], not [none]. *)
Lemma revoke_self_share_keeps_owner : ¬ revoke_last_leaves_none.
Proof.
  intros H.
  destruct (H Sample.db 400 Sample.st_self "d1"
              (Diagram_update Sample.db Sample.d1 (isSharedOnly true))
              (mkDiagramShare "d1" "alice" "alice" EDITOR)
              (Sample.rename None "x") eq_refl eq_refl)
    as (d' & Hd' & _ & _ & Hnone & _).
  vm_compute in Hd'. injection Hd' as <-.
  vm_compute in Hnone. discriminate Hnone.
Qed.

(** ** The share table keeps one row per (diagram, user) pair *)

Local Ltac shares_case :=
  simpl; split;
  [first [apply shares_same | apply shares_destroy | apply shares_level]
  | done].

Lemma handle_shares_step {db : Database} now uuid st reqUserId r :
  shares_step st (diagram_shares (handle db now uuid st reqUserId r).1)
  ∧ users (handle db now uuid st reqUserId r).1 = users st.
Proof.
  destruct reqUserId as [u|]; [|destruct r; cbv; shares_case].
  destruct r as [id|body|id body|id|id|id|id e|id w l|id|id w l|id w];
    unfold handle.
  - unfold DiagramController.getById.
    destruct (diagrams st !! id); [|shares_case].
    destruct (_ && _); shares_case.
  - unfold DiagramController.create.
    destruct (Diagram_create db _ _ _ _) as [[key d]|]; shares_case.
  - unfold DiagramController.update.
    destruct (diagrams st !! id); [|shares_case].
    destruct (_ && _); [shares_case|].
    destruct (_ && _); [shares_case|].
    destruct (Diagram_update_accepted _ _ _ _ _); shares_case.
  - unfold DiagramController.delete.
    destruct (findOwned st id u); shares_case.
  - unfold DiagramController.getVersion.
    destruct (diagrams st !! id); shares_case.
  - unfold DiagramController.duplicate.
    destruct (diagrams st !! id); [|shares_case].
    destruct (Diagram_create db _ _ _ _) as [[key d']|]; shares_case.
  - unfold DiagramController.sync.
    destruct (diagrams st !! id); [|shares_case].
    destruct (strict_neq _ _); shares_case.
  - unfold DiagramController.shareDiagram.
    destruct (findOwned st id u); [|shares_case].
    destruct (bool_decide (w ∈ users st)) eqn:Hw; simpl; [|shares_case].
    apply bool_decide_eq_true in Hw.
    destruct (findOne _ _) eqn:Hf; [shares_case|].
    simpl. split; [by apply shares_add | done].
  - unfold DiagramController.getShares.
    destruct (findOwned st id u); shares_case.
  - unfold DiagramController.updateShare.
    destruct (findOwned st id u); [|shares_case].
    destruct (findOne _ _); shares_case.
  - unfold DiagramController.revokeShare.
    destruct (findOwned st id u); [|shares_case].
    destruct (Nat.eqb _ 0); shares_case.
Qed.

Lemma update_found_keys p lvl l :
  share_key <$> update_found p lvl l = share_key <$> l.
Proof.
  induction l as [|a l IH]; [done|]. simpl.
  destruct (p a); [done|]. by rewrite !fmap_cons, IH.
Qed.

Lemma update_found_users p lvl l s :
  s ∈ update_found p lvl l →
  ∃ s', s' ∈ l ∧ sharedWithUserId s = sharedWithUserId s'.
Proof.
  induction l as [|a l IH]; simpl; [intros H; inversion H|].
  destruct (p a).
  - intros [->|Hs]%elem_of_cons.
    + exists a. split; [left | done].
    + exists s. split; [by right | done].
  - intros [->|Hs]%elem_of_cons.
    + exists a. split; [left | done].
    + destruct (IH Hs) as (s' & Hs' & E). exists s'. split; [by right | done].
Qed.

Lemma destroy_keys_NoDup p l :
  NoDup (share_key <$> l) → NoDup (share_key <$> destroy p l).
Proof.
  induction l as [|a l IH]; [done|]. rewrite fmap_cons.
  intros [Hnot Hnd]%NoDup_cons. unfold destroy. simpl.
  destruct (negb (p a)); [|by apply IH].
  rewrite fmap_cons. apply NoDup_cons. split; [|by apply IH].
  intros Hin. apply Hnot. apply list_elem_of_fmap in Hin as (s & E & Hs).
  fold (destroy p l) in Hs. apply elem_of_destroy in Hs as [Hs _].
  apply list_elem_of_fmap. eauto.
Qed.

Lemma add_share_NoDup id w u lvl (l : list DiagramShare) :
  NoDup (share_key <$> l) →
  findOne (share_of id w) l = None →
  NoDup (share_key <$> (l ++ [mkDiagramShare id w u lvl])%list).
Proof.
  intros Hnd Hf. rewrite fmap_app. apply NoDup_app. split; [done|].
  split; [|apply NoDup_singleton].
  intros k Hk Hk'. apply list_elem_of_singleton in Hk'. subst k.
  apply list_elem_of_fmap in Hk as (s & E & Hs).
  unfold findOne in Hf. rewrite find_none_iff in Hf. specialize (Hf s Hs).
  assert (share_of id w s = true) by (by apply share_of_true). congruence.
Qed.

Lemma shares_step_inv st ss :
  store_inv st → shares_step st ss →
  NoDup (share_key <$> ss) ∧ ∀ s, s ∈ ss → sharedWithUserId s ∈ users st.
Proof.
  intros [Hnd Hk] Hstep. unfold shares_unique, shares_known in *.
  destruct Hstep as [|id w u lvl Hw Hf|p lvl|p].
  - done.
  - split; [by apply add_share_NoDup|].
    intros s [Hs| ->%list_elem_of_singleton]%elem_of_app; [by apply Hk | done].
  - split; [by rewrite update_found_keys|].
    intros s (s' & Hs' & ->)%update_found_users. by apply Hk.
  - split; [by apply destroy_keys_NoDup|].
    intros s [Hs _]%elem_of_destroy. by apply Hk.
Qed.

Lemma handle_store_inv {db : Database} now uuid st reqUserId r :
  store_inv st → store_inv (handle db now uuid st reqUserId r).1.
Proof.
  intros Hinv.
  destruct (handle_shares_step (db := db) now uuid st reqUserId r)
    as [Hstep Hu].
  destruct (shares_step_inv st _ Hinv Hstep) as [Hnd Hk].
  split; [exact Hnd|]. unfold shares_known. by rewrite Hu.
Qed.

Lemma reachable_store_inv {db : Database} st : reachable db st → store_inv st.
Proof.
  induction 1 as [us|now uuid st ru r _ IH].
  - split; [apply NoDup_nil_2 | intros s Hs; inversion Hs].
  - by apply handle_store_inv.
Qed.

Lemma unique_key_count id w l :
  NoDup (share_key <$> l) → (count (share_of id w) l ≤ 1)%nat.
Proof.
  unfold count. induction l as [|a l IH]; [simpl; lia|].
  intros Hnd. simpl. destruct (share_of id w a) eqn:Ha.
  - assert (E : List.filter (share_of id w) l = []).
    { pose proof (unique_key_absent id w a l Hnd Ha) as Habs.
      destruct (List.filter (share_of id w) l) as [|b l'] eqn:E; [done|].
      assert (Hb : In b (List.filter (share_of id w) l))
        by (rewrite E; left; done).
      apply filter_In in Hb as [Hb Hp]. apply list_elem_of_In in Hb.
      rewrite (Habs b Hb) in Hp. done. }
    rewrite E. simpl. lia.
  - apply IH. rewrite fmap_cons in Hnd. by apply NoDup_cons in Hnd as [_ ?].
Qed.

Lemma shareDiagram_existing {db : Database} st reqUserId id w l :
  is_Some (findOne (share_of id w) (diagram_shares st)) →
  (DiagramController.shareDiagram db st reqUserId id w l).1 = st
  ∧ status (DiagramController.shareDiagram db st reqUserId id w l).2 ≠ 201.
Proof.
  intros [s Hs]. unfold DiagramController.shareDiagram.
  destruct reqUserId as [u|]; [|done].
  destruct (findOwned st id u); [|done].
  destruct (negb _); [done|]. by rewrite Hs.
Qed.

(** C10. [shareDiagram] for a (diagram, user) pair that already has a share
    entry never creates one and leaves the store, hence the share table,
    unchanged; asked by the diagram's creator it answers 409 "already
    shared". In every store the server can reach, each pair has at most one
    share entry. *)
Theorem share_entry_unique_per_pair {db : Database} :
  (∀ st reqUserId id w l,
     is_Some (findOne (share_of id w) (diagram_shares st)) →
     (DiagramController.shareDiagram db st reqUserId id w l).1 = st
     ∧ status (DiagramController.shareDiagram db st reqUserId id w l).2 ≠ 201)
  ∧ (∀ st id d w l,
       reachable db st →
       diagrams st !! id = Some d →
       is_Some (findOne (share_of id w) (diagram_shares st)) →
       DiagramController.shareDiagram db st (Some (userId d)) id w l
       = (st, AlreadyShared))
  ∧ (∀ st, reachable db st →
       shares_unique st
       ∧ ∀ id w, (count (share_of id w) (diagram_shares st) ≤ 1)%nat).
Proof.
  split; [exact shareDiagram_existing|]. split.
  - intros st id d w l Hreach Hd [s Hs].
    destruct (reachable_store_inv st Hreach) as [_ Hknown].
    unfold DiagramController.shareDiagram.
    rewrite (findOwned_creator st (userId d) id d Hd eq_refl).
    pose proof (find_some_elem _ _ _ Hs) as [Hin Hp].
    apply share_of_true in Hp. injection Hp as _ Hw.
    rewrite bool_decide_eq_true_2 by (rewrite <- Hw; by apply Hknown).
    simpl. unfold findOne in Hs |- *. by rewrite Hs.
  - intros st Hreach.
    destruct (reachable_store_inv st Hreach) as [Hnd _].
    split; [exact Hnd|]. intros id w. by apply unique_key_count.
Qed.

Lemma share_entry_unique_per_pair_witness :
  reachable Sample.db Sample.st_editor
  ∧ DiagramController.shareDiagram Sample.db Sample.st_editor
      (Some "alice") "d1" "bob"
      OWNER = (Sample.st_editor, AlreadyShared)
  ∧ (count (share_of "d1" "bob") (diagram_shares Sample.st_editor) ≤ 1)%nat.
Proof.
  split; [exact reachable_st_editor|]. split.
  - apply (proj1 (proj2 share_entry_unique_per_pair) Sample.st_editor "d1"
             (Diagram_update Sample.db Sample.d1 (isSharedOnly true))
             "bob" OWNER
             reachable_st_editor eq_refl).
    vm_compute. eauto.
  - apply (proj2 (proj2 share_entry_unique_per_pair) Sample.st_editor
             reachable_st_editor).
Defined.

(** ** The scenario of the specification, run on the model

    alice creates d1 (version 1) and shares it with bob as editor; bob's
    update with expected version 1 is committed as version 2; alice's
    update, still expecting version 1, is answered with the conflict that
    carries bob's row; carol, who has no share, is answered 403. *)

Example scenario_commit_then_conflict :
  let bob_update :=
    DiagramController.update Sample.db 200 Sample.st_editor (Some "bob") "d1"
      (Sample.rename (Some (JsNumber 1)) "P2") in
  let alice_update :=
    DiagramController.update Sample.db 300 bob_update.1 (Some "alice") "d1"
      (Sample.rename (Some (JsNumber 1)) "P3") in
  let carol_update :=
    DiagramController.update Sample.db 400 bob_update.1 (Some "carol") "d1"
      (Sample.rename (Some (JsNumber 2)) "P4") in
  (∃ d2, bob_update.2 = Updated "d1" d2
         ∧ version d2 = 2 ∧ name d2 = "P2" ∧ lastModifiedBy d2 = Some "bob"
         ∧ alice_update = (bob_update.1, conflict_of "d1" d2))
  ∧ carol_update = (bob_update.1, NoEditPermission).
Proof.
  split; [eexists; repeat split|]; vm_compute; reflexivity.
Qed.

(** * Further properties of the controller *)

(** ** Errors and reads never write *)

(** X1. A request that is answered with anything but 200 or 201 (a 401,
    403, 404, 409 or 500), and any request to a reading handler whatever
    its answer, leaves the store exactly as it was; and no request changes
    the set of users. *)
Theorem errors_and_reads_never_write {db : Database} now uuid st reqUserId r :
  (status (handle db now uuid st reqUserId r).2 ≠ 200
   ∧ status (handle db now uuid st reqUserId r).2 ≠ 201
   ∨ is_read r = true →
   (handle db now uuid st reqUserId r).1 = st)
  ∧ users (handle db now uuid st reqUserId r).1 = users st.
Proof.
  split.
  - destruct reqUserId as [u|]; destruct r; unfold_handlers;
      repeat case_match; simpl; intros [[? ?]|?]; done.
  - destruct reqUserId as [u|]; destruct r; unfold_handlers;
      repeat case_match; done.
Qed.

(** ** Rows a request does not address *)

Lemma update_found_other id w lvl l s :
  diagramId s ≠ id →
  s ∈ update_found (share_of id w) lvl l ↔ s ∈ l.
Proof.
  intros Hne. induction l as [|a l IH]; simpl; [done|].
  destruct (share_of id w a) eqn:Ha.
  - apply share_of_true in Ha. injection Ha as Ha _.
    rewrite !elem_of_cons. split.
    + intros [->|?]; [simpl in Hne; congruence | by right].
    + intros [->|?]; [congruence | by right].
  - rewrite !elem_of_cons, IH. done.
Qed.

(** X2. A request writes at most the diagram named by its [:id] (and
    [create] and [duplicate] only the row they insert): every other
    diagram row, and every share entry of another diagram, is exactly
    what it was. *)
Theorem other_diagrams_untouched {db : Database} now uuid st reqUserId r id' d :
  diagrams st !! id' = Some d →
  target r ≠ Some id' →
  diagrams (handle db now uuid st reqUserId r).1 !! id' = Some d
  ∧ ∀ s, diagramId s = id' →
         s ∈ diagram_shares (handle db now uuid st reqUserId r).1
         ↔ s ∈ diagram_shares st.
Proof.
  intros Hd Ht. split.
  - destruct reqUserId as [u|]; destruct r; unfold_handlers;
      repeat case_match; simpl in *; try done;
      try (rewrite lookup_insert_ne by congruence; done);
      try (rewrite lookup_delete_ne by congruence; done).
    all: match goal with
         | H : Diagram_create _ _ _ _ _ = Some _ |- _ =>
             apply Diagram_create_Some in H as (Hfree & _)
         end; rewrite lookup_insert_ne by congruence; done.
  - intros s Hs.
    destruct reqUserId as [u|]; destruct r; unfold_handlers;
      repeat case_match; simpl in *; try done.
    + rewrite elem_of_destroy. unfold share_on.
      rewrite bool_decide_eq_false. naive_solver.
    + rewrite elem_of_app, list_elem_of_singleton. split; [|by left].
      intros [?| ->]; [done|]. simpl in *. congruence.
    + apply update_found_other. congruence.
    + rewrite elem_of_destroy. split; [naive_solver|]. intros Hin.
      split; [done|]. destruct (share_of _ _ s) eqn:E; [|done].
      apply share_of_true in E. injection E as E _. congruence.
    + rewrite elem_of_destroy. split; [naive_solver|]. intros Hin.
      split; [done|]. destruct (share_of _ _ s) eqn:E; [|done].
      apply share_of_true in E. injection E as E _. congruence.
Qed.

Lemma other_diagrams_untouched_witness :
  diagrams (handle Sample.db 500 "d2" Sample.st_editor (Some "carol")
              (Duplicate "d1")).1 !! "d1"
  = Some (Diagram_update Sample.db Sample.d1 (isSharedOnly true)).
Proof.
  apply (other_diagrams_untouched 500 "d2" Sample.st_editor (Some "carol")
           (Duplicate "d1") "d1"
           (Diagram_update Sample.db Sample.d1 (isSharedOnly true)) eq_refl).
  simpl. discriminate.
Defined.


(** ** Reading a diagram *)

Lemma filter_nil_find (p : DiagramShare → bool) l :
  List.filter p l = [] ↔ List.find p l = None.
Proof.
  induction l as [|a l IH]; simpl; [done|].
  destruct (p a); [split; intros; done | exact IH].
Qed.

Lemma effectivePermission_none st u id d :
  Spec.effectivePermission st u id d = Spec.none
  ↔ userId d ≠ u ∧ findOne (share_of id u) (diagram_shares st) = None.
Proof.
  unfold Spec.effectivePermission. case_bool_decide as Hu.
  - split; [done | intros [? _]; congruence].
  - destruct (findOne _ _) as [s|].
    + split; [by destruct (permissionLevel s) | intros [_ ?]; done].
    + split; [intros _; split; [congruence | done] | done].
Qed.

(** X3. [getById] of an existing diagram answers 403 exactly when the
    requester is neither the creator nor the holder of a share entry of any
    level; otherwise it answers the stored row with the requester's share
    entries. *)
Theorem getById_denied_iff_no_permission st u id d :
  diagrams st !! id = Some d →
  (DiagramController.getById st (Some u) id = (st, AccessDenied)
   ↔ Spec.effectivePermission st u id d = Spec.none)
  ∧ (Spec.effectivePermission st u id d ≠ Spec.none →
     DiagramController.getById st (Some u) id
     = (st, DiagramJson id d
              (List.filter (share_of id u) (diagram_shares st)))).
Proof.
  intros Hd. rewrite effectivePermission_none.
  unfold DiagramController.getById. rewrite Hd.
  destruct (List.filter (share_of id u) (diagram_shares st)) as [|s l] eqn:E.
  - apply filter_nil_find in E. simpl. case_bool_decide; simpl.
    + split; [split; [done | intros [? _]; done] | done].
    + split; [done|]. intros Hn. destruct Hn. done.
  - assert (E' : findOne (share_of id u) (diagram_shares st) ≠ None).
    { unfold findOne. rewrite <- filter_nil_find, E. done. }
    simpl. rewrite andb_false_r.
    split; [split; [done | intros [_ ?]; done] | done].
Qed.

Lemma getById_denied_iff_no_permission_witness :
  DiagramController.getById Sample.st_editor (Some "carol") "d1"
  = (Sample.st_editor, AccessDenied)
  ∧ DiagramController.getById Sample.st_editor (Some "bob") "d1"
    = (Sample.st_editor,
       DiagramJson "d1" (Diagram_update Sample.db Sample.d1 (isSharedOnly true))
         [mkDiagramShare "d1" "bob" "alice" EDITOR]).
Proof.
  split.
  - apply (proj1 (getById_denied_iff_no_permission Sample.st_editor "carol"
                    "d1"
                      (Diagram_update Sample.db Sample.d1 (isSharedOnly true))
                    eq_refl)).
    vm_compute. reflexivity.
  - apply (proj2 (getById_denied_iff_no_permission Sample.st_editor "bob"
                    "d1"
                      (Diagram_update Sample.db Sample.d1 (isSharedOnly true))
                    eq_refl)).
    vm_compute. discriminate.
Defined.

(** ** Creating, writing and deleting *)

Lemma fresh_key_no_shares st key w :
  shares_ref st → diagrams st !! key = None →
  List.filter (share_of key w) (diagram_shares st) = [].
Proof.
  intros Href Hfree. apply filter_nil_find, find_none_iff. intros s Hs.
  destruct (share_of key w s) eqn:E; [|done].
  apply share_of_true in E. injection E as E _.
  destruct (Href s Hs) as [d Hd]. congruence.
Qed.

(** X4. When [create] answers 201, the diagram is stored under a key that
    was free (the body's [id], or else the generated one) and the database
    has accepted the row; its [userId] and [lastModifiedBy] are the
    requester and its [version] is 1 whatever the body says for them, and
    [name], [database] and [isShared] are the body's or else the column
    defaults. In a reachable store the new diagram is private: its creator
    reads it back through [getById] with no share entry, and every other
    user is answered 403. When the key is taken, [create] answers 500 and
    the existing diagram is kept. *)
Theorem create_then_read {db : Database} now uuid st u body :
  reachable db st →
  (∀ st' key d,
     DiagramController.create db now uuid st (Some u) body
       = (st', Created key d) →
     key = default uuid (v_id body)
     ∧ diagrams st !! key = None
     ∧ st' = set_diagrams st (<[key := d]> (diagrams st))
     ∧ accepts db st key d = true
     ∧ userId d = u
     ∧ lastModifiedBy d = Some u
     ∧ version d = 1
     ∧ name d = default "Untitled Diagram" (v_name body)
     ∧ database d = default "generic" (v_database body)
     ∧ isShared d = default false (v_isShared body)
     ∧ DiagramController.getById st' (Some u) key
       = (st', DiagramJson key d [])
     ∧ ∀ w, w ≠ u →
            DiagramController.getById st' (Some w) key = (st', AccessDenied))
  ∧ (∀ d0, diagrams st !! default uuid (v_id body) = Some d0 →
       DiagramController.create db now uuid st (Some u) body
       = (st, ServerError)).
Proof.
  intros Hreach.
  destruct (reachable_refs_and_rows st Hreach) as [Href _].
  split.
  - intros st' key d. unfold DiagramController.create.
    destruct (Diagram_create db st _ uuid now) as [[key0 d0]|] eqn:E;
      [|intros [=]].
    intros [= <- <- <-].
    apply Diagram_create_Some in E as (Hfree & Hb & Ha & Hkey).
    simpl in Hkey. split; [exact Hkey|]. split; [exact Hfree|].
    split; [done|]. split; [exact Ha|].
    unfold Diagram_build in Hb. simpl in Hb.
    destruct (assign_content db _ _) as [c|]; [|done].
    injection Hb as <-. simpl.
    repeat (split; [done|]).
    unfold DiagramController.getById. simpl. rewrite lookup_insert_eq.
    split.
    + rewrite (fresh_key_no_shares st key0 u Href Hfree). simpl.
      by rewrite bool_decide_eq_true_2.
    + intros w Hw. rewrite (fresh_key_no_shares st key0 w Href Hfree). simpl.
      by rewrite bool_decide_eq_false_2 by congruence.
  - intros d0 Hd0. unfold DiagramController.create, Diagram_create. simpl.
    rewrite Hd0. by destruct (Diagram_build db _ now).
Qed.

Lemma create_then_read_witness :
  ∃ st' d,
    DiagramController.create Sample.db 100 "d1" Sample.st0 (Some "alice")
      Sample.noValues = (st', Created "d1" d)
    ∧ version d = 1
    ∧ DiagramController.getById st' (Some "bob") "d1" = (st', AccessDenied).
Proof.
  eexists _, _. split; [vm_compute; reflexivity|].
  destruct (proj1 (create_then_read (db := Sample.db) 100 "d1" Sample.st0
                     "alice" Sample.noValues (reachable_init Sample.db _))
              _ _ _ eq_refl)
    as (_ & _ & _ & _ & _ & _ & Hv & _ & _ & _ & _ & Hw).
  split; [exact Hv|]. apply Hw. discriminate.
Defined.

(** X5. After a committed [update], [getVersion] by any user reports the
    new version, one above the old, with the writer and the time of the
    write; [sync] with the new version is in sync, and with the previous
    one it is answered the conflict carrying the new row: its key,
    [userId], [name], [database], every entry of its content, the gist
    ids, [lastModified], [lastModifiedBy], [version] and [isShared]. *)
Theorem update_then_getVersion_and_sync {db : Database}
    now st u id body st' d' v :
  DiagramController.update db now st (Some u) id body
    = (st', Updated id d') →
  DiagramController.getVersion st' (Some v) id
  = (st', VersionJson {| vi_id := id;
                         vi_version := version d';
                         vi_lastModified := now;
                         vi_lastModifiedBy := Some u |})
  ∧ DiagramController.sync st' (Some v) id (JsNumber (version d'))
    = (st', InSync (version d'))
  ∧ DiagramController.sync st' (Some v) id (JsNumber (version d' - 1))
    = (st', SyncConflict
              {| v_id := Some id;
                 v_userId := Some (userId d');
                 v_name := Some (name d');
                 v_database := Some (database d');
                 v_content := map_to_list (content d');
                 v_gistId := Some (gistId d');
                 v_loadedFromGistId := Some (loadedFromGistId d');
                 v_lastModified := Some now;
                 v_lastModifiedBy := Some (Some u);
                 v_version := Some (version d');
                 v_isShared := Some (isShared d') |})
  ∧ ∃ d, diagrams st !! id = Some d
         ∧ version d' = version d + 1
         ∧ d' = updated_row db now u d body
         ∧ diagrams st' !! id = Some d'.
Proof.
  intros H. apply update_success_row in H as (u' & d & [= <-] & Hd & -> & ->).
  unfold DiagramController.getVersion, DiagramController.sync. simpl.
  rewrite lookup_insert_eq. simpl. rewrite Z.eqb_refl. simpl.
  split; [done|]. split; [done|]. split.
  - destruct (Z.eqb_spec (version d + 1) (version d + 1 - 1)); [lia | done].
  - exists d. done.
Qed.

Lemma update_then_getVersion_and_sync_witness :
  ∃ st', (DiagramController.update Sample.db 200 Sample.st_editor (Some "bob")
            "d1" (Sample.rename (Some (JsNumber 1)) "P2")).1 = st'
         ∧ DiagramController.sync st' (Some "carol") "d1" (JsNumber 2)
           = (st', InSync 2)
         ∧ ∃ cur, DiagramController.sync st' (Some "carol") "d1" (JsNumber 1)
                  = (st', SyncConflict cur)
                  ∧ v_name cur = Some "P2".
Proof.
  eexists. split; [reflexivity|].
  destruct (update_then_getVersion_and_sync (db := Sample.db) 200
              Sample.st_editor "bob" "d1"
              (Sample.rename (Some (JsNumber 1)) "P2") _ _ "carol" eq_refl)
    as (_ & Hin & Hout & _).
  split; [exact Hin|]. eexists. split; [exact Hout|]. reflexivity.
Defined.

(** X6. The keep-local resolution of the client: when [update] answers a
    conflict, the same requester resending the same data, on the unchanged
    store, with [expectedVersion] set to the version the conflict carries
    meets no conflict and no refusal: the row is written, with that
    version plus one, if the write goes through (no nested write throws
    and the database accepts the row), and the answer is 500 with nothing
    written otherwise. *)
Theorem retry_with_server_version_commits {db : Database}
    now now' st u id body st' c :
  DiagramController.update db now st (Some u) id body
    = (st', ConflictDetected c) →
  let body' := with_expected (Some (JsNumber (c_version c))) body in
  ∃ d, diagrams st !! id = Some d
       ∧ st' = st
       ∧ c_version c = version d
       ∧ (write_accepted db now' st u id d body' = true →
          DiagramController.update db now' st' (Some u) id body'
          = committed db now' st u id d body')
       ∧ (write_accepted db now' st u id d body' = false →
          DiagramController.update db now' st' (Some u) id body'
          = (st, ServerError))
       ∧ version (updated_row db now' u d body') = c_version c + 1.
Proof.
  intros H body'. destruct (diagrams st !! id) as [d|] eqn:Hd.
  - rewrite (update_unfold now st u id d body Hd) in H.
    destruct (may_edit st u id d) eqn:Hm; simpl in H; [|discriminate H].
    destruct (_ && _); [|by destruct (write_accepted _ _ _ _ _ _ _)].
    injection H as E1 E2. subst st' c.
    exists d. split; [done|]. split; [done|]. split; [done|].
    assert (E : DiagramController.update db now' st (Some u) id body'
                = if write_accepted db now' st u id d body'
                  then committed db now' st u id d body'
                  else (st, ServerError)).
    { rewrite (update_unfold now' st u id d body' Hd), Hm. simpl.
      rewrite Z.eqb_refl. simpl. by rewrite andb_false_r. }
    split; [intros Hw; by rewrite E, Hw|].
    split; [intros Hw; by rewrite E, Hw | done].
  - unfold DiagramController.update in H. rewrite Hd in H. discriminate H.
Qed.

Lemma retry_with_server_version_commits_witness :
  let d := Diagram_update Sample.db Sample.d1 (isSharedOnly true) in
  let body := Sample.rename (Some (JsNumber 7)) "mine" in
  ∃ c, DiagramController.update Sample.db 200 Sample.st_editor (Some "bob")
         "d1" body = (Sample.st_editor, ConflictDetected c)
       ∧ c_version c = 1
       ∧ DiagramController.update Sample.db 300 Sample.st_editor (Some "bob")
           "d1" (with_expected (Some (JsNumber 1)) body)
         = committed Sample.db 300 Sample.st_editor "bob" "d1" d
             (with_expected (Some (JsNumber 1)) body).
Proof.
  intros d body. eexists.
  assert (H : DiagramController.update Sample.db 200 Sample.st_editor
                (Some "bob") "d1" body
              = (Sample.st_editor, ConflictDetected (mkConflictInfo
                   (version d) (lastModified d) (lastModifiedBy d)
                   (toJSON "d1" d))))
    by (vm_compute; reflexivity).
  split; [exact H|]. split; [reflexivity|].
  destruct (retry_with_server_version_commits (db := Sample.db) 200 300
              Sample.st_editor "bob" "d1" body Sample.st_editor _ H)
    as (d0 & Hd0 & _ & _ & Hretry & _).
  vm_compute in Hd0. injection Hd0 as <-.
  apply Hretry. vm_compute. reflexivity.
Defined.

(** X7. Of two writers that expect the same, non-zero, current version:
    once the first is committed, the second, handled after it, is not: it
    is answered the conflict carrying the first writer's row (or 403 if it
    may no longer edit), and the store stays as the first writer left
    it. *)
Theorem second_writer_never_commits {db : Database}
    now1 now2 st u1 u2 id d body1 body2 st1 d1 :
  diagrams st !! id = Some d →
  version d ≠ 0 →
  expectedVersion body1 = Some (JsNumber (version d)) →
  expectedVersion body2 = Some (JsNumber (version d)) →
  DiagramController.update db now1 st (Some u1) id body1
    = (st1, Updated id d1) →
  d1 = updated_row db now1 u1 d body1
  ∧ diagrams st1 !! id = Some d1
  ∧ DiagramController.update db now2 st1 (Some u2) id body2
    = (st1, if may_edit st1 u2 id d1 then conflict_of id d1
            else NoEditPermission).
Proof.
  intros Hd Hv He1 He2 H1.
  apply update_success_row in H1 as (u' & d0 & [= <-] & Hd0 & -> & ->).
  assert (d0 = d) as -> by congruence.
  set (d1 := updated_row db now1 u1 d body1).
  set (st1 := set_diagrams st (<[id := d1]> (diagrams st))).
  assert (Hd1 : diagrams st1 !! id = Some d1) by apply lookup_insert_eq.
  split; [done|]. split; [exact Hd1|].
  rewrite (update_unfold now2 st1 u2 id d1 body2 Hd1).
  destruct (may_edit st1 u2 id d1); simpl; [|done].
  rewrite He2. simpl.
  rewrite (proj2 (Z.eqb_neq (version d) 0)) by done.
  rewrite (proj2 (Z.eqb_neq (version d + 1) (version d))) by lia. done.
Qed.

Lemma second_writer_never_commits_witness :
  ∃ st1 d1,
    DiagramController.update Sample.db 200 Sample.st_editor (Some "bob") "d1"
      (Sample.rename (Some (JsNumber 1)) "P2") = (st1, Updated "d1" d1)
    ∧ DiagramController.update Sample.db 300 st1 (Some "alice") "d1"
        (Sample.rename (Some (JsNumber 1)) "P3") = (st1, conflict_of "d1" d1).
Proof.
  eexists _, _. split; [vm_compute; reflexivity|].
  apply (second_writer_never_commits (db := Sample.db) 200 300
           Sample.st_editor "bob" "alice" "d1"
           (Diagram_update Sample.db Sample.d1 (isSharedOnly true))
           (Sample.rename (Some (JsNumber 1)) "P2")
           (Sample.rename (Some (JsNumber 1)) "P3") _ _
           eq_refl ltac:(vm_compute; discriminate) eq_refl eq_refl eq_refl).
Defined.

(** X8. On the store a successful [delete] leaves, any request that names
    the deleted diagram, by any user, is answered 404 and writes nothing,
    and no share entry of that diagram is left. *)
Theorem delete_then_every_request_404 {db : Database} now uuid st u id st' v r :
  DiagramController.delete st (Some u) id = (st', Deleted) →
  target r = Some id ∨ r = Duplicate id →
  status (handle db now uuid st' (Some v) r).2 = 404
  ∧ (handle db now uuid st' (Some v) r).1 = st'
  ∧ count (share_on id) (diagram_shares st') = 0%nat.
Proof.
  unfold DiagramController.delete.
  destruct (findOwned st id u); [|intros [=]]. intros [= <-] Hr.
  assert (Hnone : ∀ w, findOwned
            {| users := users st; diagrams := base.delete id (diagrams st);
               diagram_shares := destroy (share_on id) (diagram_shares st) |}
            id w = None).
  { intros w. unfold findOwned. simpl. by rewrite lookup_delete_eq. }
  split; [|split].
  - destruct Hr as [Hr| ->]; [destruct r; simpl in Hr; try done;
      injection Hr as ->|]; unfold_handlers; simpl;
      rewrite ?lookup_delete_eq, ?Hnone; done.
  - destruct Hr as [Hr| ->]; [destruct r; simpl in Hr; try done;
      injection Hr as ->|]; unfold_handlers; simpl;
      rewrite ?lookup_delete_eq, ?Hnone; done.
  - unfold count, destroy. simpl.
    destruct (List.filter _ (List.filter _ _)) as [|s l] eqn:E; [done|].
    assert (Hin : In s (List.filter (share_on id)
               (List.filter (λ s, negb (share_on id s)) (diagram_shares st))))
      by (rewrite E; left; done).
    apply filter_In in Hin as [Hin Hp]. apply filter_In in Hin as [_ Hn].
    rewrite Hp in Hn. done.
Qed.

Lemma delete_then_every_request_404_witness :
  ∃ st', DiagramController.delete Sample.st_editor (Some "alice") "d1"
         = (st', Deleted)
         ∧ status (handle Sample.db 500 "d2" st' (Some "bob") (GetById "d1")).2
             = 404
         ∧ diagram_shares st' = [].
Proof.
  eexists. split; [vm_compute; reflexivity|].
  split; [|vm_compute; reflexivity].
  apply (delete_then_every_request_404 500 "d2" Sample.st_editor "alice" "d1"
           _ "bob" (GetById "d1") eq_refl).
  left. reflexivity.
Defined.

(** ** The reachable stores are well formed *)

(** X9. In every store the server can reach, each share entry refers to
    an existing diagram and a registered user, and each diagram has a
    version of at least 1, a [lastModifiedBy], and exactly the nine content
    attributes of the model as the keys of its content. *)
Theorem reachable_store_well_formed {db : Database} st :
  reachable db st →
  (∀ s, s ∈ diagram_shares st →
        is_Some (diagrams st !! diagramId s) ∧ sharedWithUserId s ∈ users st)
  ∧ (∀ id d, diagrams st !! id = Some d →
       1 ≤ version d
       ∧ is_Some (lastModifiedBy d)
       ∧ dom (content d) = list_to_set jsonAttributes).
Proof.
  intros Hreach.
  destruct (reachable_refs_and_rows st Hreach) as [Href Hrows].
  destruct (reachable_store_inv st Hreach) as [_ Hknown].
  split; [intros s Hs; split; [by apply Href | by apply Hknown] | exact Hrows].
Qed.

Lemma reachable_store_well_formed_witness :
  reachable Sample.db Sample.st_editor
  ∧ ∀ id d, diagrams Sample.st_editor !! id = Some d → 1 ≤ version d.
Proof.
  split; [exact reachable_st_editor|]. intros id d Hd.
  apply (proj2 (reachable_store_well_formed Sample.st_editor
                  reachable_st_editor) id d Hd).
Defined.

(** ** Partial updates and exact copies *)

Lemma written_attribute_attribute k a :
  written_attribute k = Some a → a ∈ jsonAttributes.
Proof.
  unfold written_attribute. case_bool_decide; [by intros [= <-]|].
  destruct (split_dot k) as [[a' path]|]; [|done].
  case_bool_decide; [|done]. intros [= <-]. by apply jsonColumns_attributes.
Qed.

Lemma update_success_accepted {db : Database} now st u id body st' d' :
  DiagramController.update db now st (Some u) id body
    = (st', Updated id d') →
  ∃ d, diagrams st !! id = Some d
       ∧ d' = updated_row db now u d body
       ∧ assign_content db (content d) (v_content (diagramData body))
         = Some (content d')
       ∧ accepts db st id d' = true.
Proof.
  intros H. destruct (diagrams st !! id) as [d|] eqn:Hd.
  - rewrite (update_unfold now st u id d body Hd) in H.
    destruct (negb _); [discriminate H|].
    destruct (_ && _); [discriminate H|].
    destruct (write_accepted _ _ _ _ _ _ _) eqn:Hw; [|discriminate H].
    injection H as _ <-. exists d. split; [done|]. split; [done|].
    unfold write_accepted in Hw. unfold updated_row at 1. simpl.
    destruct (assign_content db _ _); done.
  - unfold DiagramController.update in H. rewrite Hd in H. discriminate H.
Qed.

(** X10. A committed [update] is partial. An attribute of the content that
    no key of the body writes to, neither by its name nor by a dotted key
    that leads into it, keeps its stored value; an attribute that the body
    names, with no later key of the body writing to it, gets the body's
    value; a JSON attribute that one dotted key of the body leads into, and
    no other key writes to, gets what the nested write makes of its stored
    value; a key that is neither stores nothing; and [name], [database]
    and the gist ids keep their stored values unless the body gives
    them. *)
Theorem update_is_partial {db : Database} now st u id body st' d' :
  DiagramController.update db now st (Some u) id body
    = (st', Updated id d') →
  ∃ d, diagrams st !! id = Some d
       ∧ (∀ k, (∀ kv, kv ∈ v_content (diagramData body) →
                      written_attribute kv.1 ≠ Some k) →
               content d' !! k = content d !! k)
       ∧ (∀ l1 l2 k v,
            v_content (diagramData body) = (l1 ++ (k, v) :: l2)%list →
            k ∈ jsonAttributes →
            (∀ kv, kv ∈ l2 → written_attribute kv.1 ≠ Some k) →
            content d' !! k = Some v)
       ∧ (∀ l1 l2 k v a path,
            v_content (diagramData body) = (l1 ++ (k, v) :: l2)%list →
            k ∉ jsonAttributes →
            split_dot k = Some (a, path) →
            a ∈ jsonColumns →
            (∀ kv, kv ∈ (l1 ++ l2)%list → written_attribute kv.1 ≠ Some a) →
            content d' !! a = nested_write db (content d !! a) path v)
       ∧ (∀ k, k ∉ jsonAttributes → content d' !! k = content d !! k)
       ∧ name d' = default (name d) (v_name (diagramData body))
       ∧ database d' = default (database d) (v_database (diagramData body))
       ∧ gistId d' = default (gistId d) (v_gistId (diagramData body))
       ∧ loadedFromGistId d'
         = default (loadedFromGistId d) (v_loadedFromGistId (diagramData body)).
Proof.
  intros H. apply update_success_accepted in H as (d & Hd & Hrow & Hc & _).
  exists d. split; [done|].
  split; [intros k Hk; by apply (assign_content_other db _ _ _ k Hc)|].
  split.
  { intros l1 l2 k v El Hk Hl2. rewrite El in Hc.
    by apply (assign_content_last db l1 l2 _ _ k v Hc). }
  split.
  { intros l1 l2 k v a path El Hk Hs Ha Hall. rewrite El in Hc.
    by apply (assign_content_nested db l1 l2 _ _ k v a path Hc). }
  split.
  { intros k Hk. apply (assign_content_other db _ _ _ k Hc).
    intros kv _ E. by apply written_attribute_attribute in E. }
  by rewrite Hrow.
Qed.

Lemma update_is_partial_witness :
  ∃ d', (DiagramController.update Sample.db 200 Sample.st_editor (Some "bob")
           "d1" (Sample.rename None "P2")).2 = Updated "d1" d'
        ∧ name d' = "P2"
        ∧ database d' = "generic"
        ∧ content d' !! "tables" = Some "[]".
Proof.
  eexists. split; [vm_compute; reflexivity|].
  destruct (update_is_partial (db := Sample.db) 200 Sample.st_editor "bob"
              "d1" (Sample.rename None "P2") _ _ eq_refl)
    as (d & Hd & Hc & _ & _ & _ & Hn & Hdb & _).
  vm_compute in Hd. injection Hd as <-.
  split; [exact Hn|]. split; [exact Hdb|].
  rewrite Hc; [vm_compute; reflexivity|]. intros kv Hkv. inversion Hkv.
Defined.

(** X11. When [duplicate] answers 201 in a reachable store, the copy is
    stored under the generated key, which was free, and the database has
    accepted it; it carries the content, database, [lastModified] and the
    [isShared] flag of the original unchanged and its name followed by
    " (Copy)", is owned by the requester and has version 1; the original
    and the share table are as they were, and the copy has no share entry
    (so a copy of a shared diagram is flagged shared without being
    shared). *)
Theorem duplicate_copies_exactly {db : Database}
    now uuid st u id d st' key d' :
  reachable db st →
  diagrams st !! id = Some d →
  DiagramController.duplicate db now uuid st (Some u) id
    = (st', Created key d') →
  key = uuid
  ∧ diagrams st !! uuid = None
  ∧ accepts db st uuid d' = true
  ∧ content d' = content d
  ∧ database d' = database d
  ∧ name d' = name d +:+ " (Copy)"
  ∧ lastModified d' = lastModified d
  ∧ isShared d' = isShared d
  ∧ userId d' = u
  ∧ version d' = 1
  ∧ diagrams st' !! uuid = Some d'
  ∧ diagrams st' !! id = Some d
  ∧ diagram_shares st' = diagram_shares st
  ∧ count (share_on uuid) (diagram_shares st') = 0%nat.
Proof.
  intros Hreach Hd H.
  destruct (reachable_refs_and_rows st Hreach) as [Href Hrows].
  destruct (Hrows id d Hd) as (_ & _ & Hdom).
  destruct (diagrams st !! uuid) as [d0|] eqn:Hfresh.
  { unfold DiagramController.duplicate, Diagram_create in H.
    rewrite Hd in H. simpl in H. rewrite Hfresh in H.
    by destruct (Diagram_build db _ now). }
  rewrite (duplicate_unfold now uuid st u id d Hd Hdom Hfresh) in H.
  destruct (accepts db st uuid _) eqn:Ha; [|discriminate H].
  injection H as <- <- <-. simpl.
  split; [done|]. split; [done|]. split; [exact Ha|].
  repeat (split; [done|]).
  split; [apply lookup_insert_eq|].
  split; [rewrite lookup_insert_ne; [done | congruence]|].
  split; [done|].
  unfold count. destruct (List.filter _ _) as [|s l] eqn:E; [done|].
  assert (Hin : In s (List.filter (share_on uuid) (diagram_shares st)))
    by (rewrite E; left; done).
  apply filter_In in Hin as [Hin Hp]. apply list_elem_of_In in Hin.
  unfold share_on in Hp. apply bool_decide_eq_true in Hp.
  destruct (Href s Hin) as [d1 Hd1]. congruence.
Qed.

Lemma duplicate_copies_exactly_witness :
  ∃ st' d',
    DiagramController.duplicate Sample.db 500 "d2" Sample.st_editor
      (Some "carol") "d1" = (st', Created "d2" d')
    ∧ content d' = contentDefaults
    ∧ isShared d' = true
    ∧ count (share_on "d2") (diagram_shares st') = 0%nat.
Proof.
  eexists _, _. split; [vm_compute; reflexivity|].
  destruct (duplicate_copies_exactly (db := Sample.db) 500 "d2"
              Sample.st_editor "carol" "d1"
              (Diagram_update Sample.db Sample.d1 (isSharedOnly true)) _ _ _
              reachable_st_editor eq_refl eq_refl)
    as (_ & _ & _ & Hc & _ & _ & _ & Hs & _ & _ & _ & _ & _ & Hn).
  split; [exact Hc|]. split; [exact Hs | exact Hn].
Defined.

(** ** Granting, changing and revoking a share *)

Lemma find_snoc (p : DiagramShare → bool) (l : list DiagramShare) x :
  List.find p l = None →
  List.find p (l ++ [x])%list = if p x then Some x else None.
Proof.
  induction l as [|a l IH]; simpl; [done|].
  destruct (p a); [done | exact IH].
Qed.

Lemma find_edit_none id u l :
  List.find (share_of id u) l = None → List.find (edit_share_of id u) l = None.
Proof.
  rewrite !find_none_iff. intros H s Hs. unfold edit_share_of.
  by rewrite (H s Hs).
Qed.

Lemma count_zero_existsb (p : DiagramShare → bool) l :
  Nat.eqb (count p l) 0 = negb (existsb p l).
Proof.
  unfold count. induction l as [|a l IH]; simpl; [done|].
  destruct (p a); [done | exact IH].
Qed.

Lemma find_update_found id w lvl l s :
  List.find (share_of id w) l = Some s →
  List.find (share_of id w) (update_found (share_of id w) lvl l)
  = Some (mkDiagramShare (diagramId s) (sharedWithUserId s)
            (sharedByUserId s) lvl).
Proof.
  induction l as [|a l IH]; simpl; [done|].
  destruct (share_of id w a) eqn:Ha.
  - intros [= <-]. simpl.
    assert (E : share_of id w (mkDiagramShare (diagramId a)
                  (sharedWithUserId a) (sharedByUserId a) lvl) = true)
      by exact Ha.
    by rewrite E.
  - intros H. simpl. rewrite Ha. by apply IH.
Qed.

Lemma update_found_other_key id w lvl l x :
  share_key x ≠ (id, w) →
  x ∈ update_found (share_of id w) lvl l ↔ x ∈ l.
Proof.
  intros Hne. induction l as [|a l IH]; simpl; [done|].
  destruct (share_of id w a) eqn:Ha.
  - apply share_of_true in Ha. rewrite !elem_of_cons. split.
    + intros [->|?]; [by destruct Hne | by right].
    + intros [->|?]; [by destruct Hne | by right].
  - rewrite !elem_of_cons, IH. done.
Qed.

(** X12. When the creator shares a diagram with a registered user who has
    no entry yet, the entry is added to the share table with the creator as
    [sharedBy], the diagram row is the old one with [isShared] set (same
    version, same creator), [getShares] lists the diagram's former entries
    and the new one, in the order the database returns them, the grantee
    can read the diagram, and the grantee's [update] is refused exactly
    when the level is viewer (and the grantee is not the creator). *)
Theorem shareDiagram_grants {db : Database} st u id d w lvl :
  diagrams st !! id = Some d →
  userId d = u →
  w ∈ users st →
  findOne (share_of id w) (diagram_shares st) = None →
  let share := mkDiagramShare id w u lvl in
  let d' := Diagram_update db d (isSharedOnly true) in
  ∃ st',
    DiagramController.shareDiagram db st (Some u) id w lvl = (st', Shared share)
    ∧ diagram_shares st' = (diagram_shares st ++ [share])%list
    ∧ diagrams st' = <[id := d']> (diagrams st)
    ∧ isShared d' = true ∧ version d' = version d ∧ userId d' = u
    ∧ (∃ l, DiagramController.getShares db st' (Some u) id
            = (st', SharesJson l)
            ∧ l ≡ₚ (List.filter (share_on id) (diagram_shares st)
                     ++ [share])%list)
    ∧ DiagramController.getById st' (Some w) id
      = (st', DiagramJson id d' [share])
    ∧ ∀ now body,
        (DiagramController.update db now st' (Some w) id body).2
          = NoEditPermission
        ↔ w ≠ u ∧ lvl = VIEWER.
Proof.
  intros Hd Hu Hw Hf share d'.
  set (st' := {| users := users st;
                 diagrams := <[id := d']> (diagrams st);
                 diagram_shares := (diagram_shares st ++ [share])%list |}).
  exists st'.
  assert (Hshare : share_of id w share = true) by (by apply share_of_true).
  assert (Hon : List.filter (share_on id) [share] = [share]).
  { simpl. unfold share_on. simpl. by rewrite bool_decide_eq_true_2. }
  assert (Hof : List.filter (share_of id w) [share] = [share]).
  { simpl. by rewrite Hshare. }
  assert (Hd' : diagrams st' !! id = Some d') by apply lookup_insert_eq.
  assert (Hu' : userId d' = u) by exact Hu.
  split.
  { unfold DiagramController.shareDiagram.
    rewrite (findOwned_creator st u id d Hd Hu).
    rewrite bool_decide_eq_true_2 by done. simpl. by rewrite Hf. }
  split; [done|]. split; [done|]. split; [done|]. split; [done|].
  split; [done|]. split; [|split].
  - unfold DiagramController.getShares.
    rewrite (findOwned_creator st' u id d' Hd' Hu').
    eexists. split; [reflexivity|]. rewrite scan_perm.
    unfold st'. cbn [diagram_shares]. by rewrite List.filter_app, Hon.
  - assert (Hfil : List.filter (share_of id w) (diagram_shares st') = [share]).
    { unfold st'. cbn [diagram_shares]. rewrite List.filter_app, Hof.
      unfold findOne in Hf. apply filter_nil_find in Hf. by rewrite Hf. }
    unfold DiagramController.getById. rewrite Hd', Hfil.
    cbn [length Nat.eqb negb]. by rewrite andb_false_r.
  - intros now body.
    rewrite (update_forbidden_iff now st' w id d' body Hd').
    assert (Hedit : is_Some (findOne (edit_share_of id w) (diagram_shares st'))
                    ↔ lvl ≠ VIEWER).
    { unfold findOne, st'. cbn [diagram_shares].
      rewrite (find_snoc _ _ share (find_edit_none id w _ Hf)).
      unfold edit_share_of. rewrite Hshare. cbn [permissionLevel share andb].
      destruct lvl; case_bool_decide; split; intros; try done;
        try (by eexists); set_solver. }
    unfold may_edit. rewrite Hu', orb_false_iff, !bool_decide_eq_false, Hedit.
    destruct lvl; naive_solver.
Qed.

Lemma shareDiagram_grants_witness :
  ∃ st',
    DiagramController.shareDiagram Sample.db Sample.st1 (Some "alice")
      "d1" "bob" VIEWER
      = (st', Shared (mkDiagramShare "d1" "bob" "alice" VIEWER))
    ∧ (DiagramController.update Sample.db 200 st' (Some "bob") "d1"
         (Sample.rename None "x")).2 = NoEditPermission.
Proof.
  destruct (shareDiagram_grants (db := Sample.db) Sample.st1 "alice" "d1"
              Sample.d1 "bob" VIEWER
              eq_refl eq_refl ltac:(vm_compute; set_solver) eq_refl)
    as (st' & Hshare & _ & _ & _ & _ & _ & _ & _ & Hupd).
  exists st'. split; [exact Hshare|].
  apply Hupd. split; [discriminate | reflexivity].
Defined.

(** X13. When the creator changes a grantee's level, the grantee's entry
    keeps its diagram, user and [sharedBy] and has the new level, and no
    other entry and no diagram changes; for a grantee other than the
    creator, the effective permission is the new level, and after a change
    to viewer (the share table having one entry per pair) the grantee's
    [update] is answered 403. *)
Theorem updateShare_sets_level {db : Database} st u id d w lvl s :
  diagrams st !! id = Some d →
  userId d = u →
  findOne (share_of id w) (diagram_shares st) = Some s →
  let s' := mkDiagramShare (diagramId s) (sharedWithUserId s)
              (sharedByUserId s) lvl in
  ∃ st',
    DiagramController.updateShare st (Some u) id w lvl
      = (st', PermissionUpdated s')
    ∧ diagrams st' = diagrams st
    ∧ findOne (share_of id w) (diagram_shares st') = Some s'
    ∧ share_key <$> diagram_shares st' = share_key <$> diagram_shares st
    ∧ (∀ x, share_key x ≠ (id, w) →
            x ∈ diagram_shares st' ↔ x ∈ diagram_shares st)
    ∧ (w ≠ u → Spec.effectivePermission st' w id d = Spec.of_share lvl)
    ∧ (w ≠ u → lvl = VIEWER → shares_unique st →
       ∀ now body,
         DiagramController.update db now st' (Some w) id body
         = (st', NoEditPermission)).
Proof.
  intros Hd Hu Hf s'.
  set (st' := set_shares st
                (update_found (share_of id w) lvl (diagram_shares st))).
  exists st'.
  assert (Hf' : findOne (share_of id w) (diagram_shares st') = Some s')
    by (by apply find_update_found).
  assert (Hd' : diagrams st' !! id = Some d) by exact Hd.
  split.
  { unfold DiagramController.updateShare.
    by rewrite (findOwned_creator st u id d Hd Hu), Hf. }
  split; [done|]. split; [exact Hf'|].
  split; [apply update_found_keys|].
  split; [intros x Hx; by apply update_found_other_key|].
  split.
  - intros Hne. unfold Spec.effectivePermission.
    rewrite bool_decide_eq_false_2 by congruence. by rewrite Hf'.
  - intros Hne -> Hnd now body.
    rewrite (update_unfold now st' w id d body Hd').
    assert (Hm : may_edit st' w id d = false); [|by rewrite Hm].
    unfold may_edit. rewrite bool_decide_eq_false_2 by congruence. simpl.
    apply bool_decide_eq_false. intros Hs.
    apply find_edit_share in Hs as (x & Hx & Hl).
    + assert (E : Some x = Some s') by (rewrite <- Hx; exact Hf').
      injection E as ->. simpl in Hl. set_solver.
    + unfold shares_unique in Hnd. by rewrite update_found_keys.
Qed.

Lemma updateShare_sets_level_witness :
  ∃ st',
    DiagramController.updateShare Sample.st_editor (Some "alice") "d1" "bob"
      VIEWER
      = (st', PermissionUpdated (mkDiagramShare "d1" "bob" "alice" VIEWER))
    ∧ DiagramController.update Sample.db 200 st' (Some "bob") "d1"
        (Sample.rename None "Should fail") = (st', NoEditPermission).
Proof.
  destruct (updateShare_sets_level (db := Sample.db) Sample.st_editor "alice"
              "d1"
              (Diagram_update Sample.db Sample.d1 (isSharedOnly true))
              "bob" VIEWER
              (mkDiagramShare "d1" "bob" "alice" EDITOR)
              eq_refl eq_refl eq_refl)
    as (st' & Hupd & _ & _ & _ & _ & _ & Hdown).
  exists st'. split; [exact Hupd|].
  apply Hdown; [discriminate | reflexivity | exact shares_unique_editor].
Defined.

(** X14. [revokeShare] by the creator answers 404 "share not found" and
    changes nothing when the user has no entry; otherwise it removes the
    entries of exactly that (diagram, user) pair, clears [isShared] when no
    entry of the diagram is left and leaves it as it was otherwise, and
    touches neither the version nor any other diagram. *)
Theorem revokeShare_removes_pair {db : Database} st u id d w :
  diagrams st !! id = Some d →
  userId d = u →
  (findOne (share_of id w) (diagram_shares st) = None →
   DiagramController.revokeShare db st (Some u) id w = (st, ShareNotFound))
  ∧ (is_Some (findOne (share_of id w) (diagram_shares st)) →
     ∃ st' d',
       DiagramController.revokeShare db st (Some u) id w = (st', ShareRevoked)
       ∧ (∀ x, x ∈ diagram_shares st'
               ↔ x ∈ diagram_shares st ∧ share_key x ≠ (id, w))
       ∧ diagrams st' !! id = Some d'
       ∧ isShared d' = (if Spec.shared st' id then isShared d else false)
       ∧ version d' = version d
       ∧ ∀ id', id' ≠ id → diagrams st' !! id' = diagrams st !! id').
Proof.
  intros Hd Hu. unfold DiagramController.revokeShare.
  rewrite (findOwned_creator st u id d Hd Hu).
  assert (Hc : Nat.eqb (count (share_of id w) (diagram_shares st)) 0
               = bool_decide (findOne (share_of id w) (diagram_shares st)
                              = None)).
  { unfold count, findOne.
    destruct (List.filter (share_of id w) (diagram_shares st)) as [|a l'] eqn:E.
    - apply filter_nil_find in E. by rewrite bool_decide_eq_true_2.
    - simpl. rewrite bool_decide_eq_false_2; [done|].
      rewrite <- filter_nil_find, E. done. }
  rewrite Hc. split.
  - intros Hf. by rewrite bool_decide_eq_true_2.
  - intros [s Hs]. rewrite bool_decide_eq_false_2 by congruence.
    rewrite count_zero_existsb.
    set (shares' := destroy (share_of id w) (diagram_shares st)).
    assert (Hmem : ∀ x, x ∈ shares'
                        ↔ x ∈ diagram_shares st ∧ share_key x ≠ (id, w)).
    { intros x. unfold shares'. rewrite elem_of_destroy.
      split; intros [Hx Hk]; (split; [done|]).
      - intros Hk'. apply share_of_true in Hk'. congruence.
      - destruct (share_of id w x) eqn:E; [|done].
        apply share_of_true in E. done. }
    unfold Spec.shared.
    destruct (existsb (share_on id) shares') eqn:Ex; cbn [negb].
    + exists {| users := users st; diagrams := diagrams st;
                diagram_shares := shares' |}, d.
      cbn [diagram_shares diagrams]. rewrite Ex. done.
    + exists {| users := users st;
                diagrams := <[id := Diagram_update db d (isSharedOnly false)]>
                              (diagrams st);
                diagram_shares := shares' |},
             (Diagram_update db d (isSharedOnly false)).
      cbn [diagram_shares diagrams]. rewrite Ex.
      split; [done|]. split; [done|]. split; [apply lookup_insert_eq|].
      split; [done|]. split; [done|].
      intros id' Hne. by rewrite lookup_insert_ne.
Qed.

Lemma revokeShare_removes_pair_witness :
  DiagramController.revokeShare Sample.db Sample.st_editor (Some "alice")
    "d1" "carol"
  = (Sample.st_editor, ShareNotFound).
Proof.
  apply (proj1 (revokeShare_removes_pair Sample.st_editor "alice" "d1"
                  (Diagram_update Sample.db Sample.d1 (isSharedOnly true))
                  "carol"
                  eq_refl eq_refl)).
  reflexivity.
Defined.

(** ** The listings *)

#[local] Instance newer_first_total : Total Listing.newer_first.
Proof. intros a b. unfold Listing.newer_first. lia. Qed.

Lemma find_filter (p q : DiagramShare → bool) l :
  List.find p (List.filter q l) = List.find (λ s, q s && p s) l.
Proof.
  induction l as [|a l IH]; simpl; [done|].
  destruct (q a); simpl; [|exact IH]. destruct (p a); [done | exact IH].
Qed.

Lemma find_pointwise (p q : DiagramShare → bool) l :
  (∀ s, p s = q s) → List.find p l = List.find q l.
Proof.
  intros H. induction l as [|a l IH]; simpl; [done|].
  by rewrite H, IH.
Qed.

Lemma find_share_of_sharesWith st u id :
  List.find (λ s, bool_decide (diagramId s = id)) (Listing.sharesWith st u)
  = findOne (share_of id u) (diagram_shares st).
Proof.
  unfold Listing.sharesWith, findOne. rewrite find_filter.
  apply find_pointwise. intros s. unfold share_of. apply andb_comm.
Qed.

Lemma elem_of_sharesWith_ids st u id :
  id ∈ diagramId <$> Listing.sharesWith st u
  ↔ is_Some (findOne (share_of id u) (diagram_shares st)).
Proof.
  rewrite list_elem_of_fmap. unfold Listing.sharesWith, findOne. split.
  - intros (s & -> & Hs). apply list_elem_of_In, filter_In in Hs as [Hs Hu].
    apply bool_decide_eq_true in Hu.
    destruct (List.find _ _) eqn:E; [eauto|].
    rewrite find_none_iff in E. apply list_elem_of_In in Hs.
    specialize (E s Hs). unfold share_of in E.
    rewrite !bool_decide_eq_true_2 in E by done. done.
  - intros [s Hs]. apply find_some_elem in Hs as [Hs Hp].
    apply share_of_true in Hp. injection Hp as Hi Hu.
    exists s. split; [done|]. apply list_elem_of_In, filter_In.
    split; [by apply list_elem_of_In | by apply bool_decide_eq_true].
Qed.

(** X15. [getAll] lists as own diagrams exactly those the requester
    created, newest [lastModified] first, and as shared diagrams exactly
    those with a share entry for the requester, each with that entry's
    level; a diagram is listed if and only if [getById] would not deny
    it. *)
Theorem getAll_lists_what_is_readable st u :
  ∃ own shared,
    Listing.getAll st (Some u) = (st, Listing.AllDiagrams own shared)
    ∧ (∀ id d, (id, d) ∈ own ↔ diagrams st !! id = Some d ∧ userId d = u)
    ∧ Sorted Listing.newer_first own
    ∧ (∀ id d lvl,
         (id, d, lvl) ∈ shared
         ↔ diagrams st !! id = Some d
           ∧ ∃ s, findOne (share_of id u) (diagram_shares st) = Some s
                  ∧ lvl = Some (permissionLevel s))
    ∧ (∀ id d, diagrams st !! id = Some d →
         ((id, d) ∈ own ∨ ∃ lvl, (id, d, lvl) ∈ shared)
         ↔ Spec.effectivePermission st u id d ≠ Spec.none).
Proof.
  eexists _, _. split; [reflexivity|].
  assert (Hown : ∀ id d,
    (id, d) ∈ merge_sort Listing.newer_first
                (filter (λ r : string * Diagram, userId r.2 = u)
                   (map_to_list (diagrams st)))
    ↔ diagrams st !! id = Some d ∧ userId d = u).
  { intros id d. rewrite merge_sort_Permutation, list_elem_of_filter.
    rewrite elem_of_map_to_list. simpl. tauto. }
  assert (Hshared : ∀ id d lvl,
    (id, d, lvl) ∈
      (λ r : string * Diagram,
         (r, permissionLevel <$>
               List.find (λ s, bool_decide (diagramId s = r.1))
                 (Listing.sharesWith st u)))
        <$> filter (λ r : string * Diagram,
                      r.1 ∈ diagramId <$> Listing.sharesWith st u)
              (map_to_list (diagrams st))
    ↔ diagrams st !! id = Some d
      ∧ ∃ s, findOne (share_of id u) (diagram_shares st) = Some s
             ∧ lvl = Some (permissionLevel s)).
  { intros id d lvl. rewrite list_elem_of_fmap. split.
    - intros ([id' d'] & E & Hr). simpl in E. injection E as -> -> ->.
      apply list_elem_of_filter in Hr as [Hin Hr]. simpl in Hin.
      apply elem_of_map_to_list in Hr. split; [done|].
      apply elem_of_sharesWith_ids in Hin as [s Hs]. exists s.
      split; [done|]. by rewrite find_share_of_sharesWith, Hs.
    - intros (Hd & s & Hs & ->). exists (id, d). simpl.
      rewrite find_share_of_sharesWith, Hs. split; [done|].
      apply list_elem_of_filter. split.
      + simpl. apply elem_of_sharesWith_ids. eauto.
      + by apply elem_of_map_to_list. }
  split; [exact Hown|]. split; [apply Sorted_merge_sort, _|].
  split; [exact Hshared|].
  intros id d Hd. rewrite Hown. rewrite effectivePermission_none. split.
  - intros [[_ Hu]|[lvl Hl]] [Hne Hf]; [done|].
    apply Hshared in Hl as (_ & s & Hs & _). congruence.
  - intros Hn. destruct (decide (userId d = u)) as [Hu|Hu]; [by left|].
    right. destruct (findOne (share_of id u) (diagram_shares st)) as [s|] eqn:E.
    + exists (Some (permissionLevel s)). apply Hshared. eauto.
    + destruct Hn. done.
Qed.

Lemma unique_key_inj l x y :
  NoDup (share_key <$> l) → x ∈ l → y ∈ l →
  share_key x = share_key y → x = y.
Proof.
  induction l as [|a l IH]; [intros _ Hx; inversion Hx|].
  rewrite fmap_cons. intros [Hnot Hnd]%NoDup_cons.
  intros [->|Hx]%elem_of_cons [->|Hy]%elem_of_cons Hk; [done| | |by apply IH].
  - destruct Hnot. rewrite Hk. apply list_elem_of_fmap. eauto.
  - destruct Hnot. rewrite <- Hk. apply list_elem_of_fmap. eauto.
Qed.

(** X16. In a reachable store [getSharedWithMe] answers one entry per
    share entry of the requester, each with its diagram present; a diagram
    is listed with a level exactly when the requester's share entry for it
    has that level. *)
Theorem getSharedWithMe_entries {db : Database} st u :
  reachable db st →
  ∃ l, Listing.getSharedWithMe st (Some u) = (st, Listing.SharedWithMe l)
       ∧ length l = length (Listing.sharesWith st u)
       ∧ (∀ e, e ∈ l →
            ∃ s d, s ∈ diagram_shares st
                   ∧ sharedWithUserId s = u
                   ∧ diagrams st !! diagramId s = Some d
                   ∧ e = (Some (diagramId s, d), permissionLevel s,
                          sharedByUserId s))
       ∧ (∀ id d lvl,
            (∃ by_, (Some (id, d), lvl, by_) ∈ l)
            ↔ diagrams st !! id = Some d
              ∧ ∃ s, findOne (share_of id u) (diagram_shares st) = Some s
                     ∧ lvl = permissionLevel s).
Proof.
  intros Hreach.
  destruct (reachable_refs_and_rows st Hreach) as [Href _].
  destruct (reachable_store_inv st Hreach) as [Hnd _].
  eexists. split; [reflexivity|]. split; [by rewrite length_fmap|].
  assert (Hent : ∀ e,
    e ∈ (λ share,
           ((λ d, (diagramId share, d)) <$> diagrams st !! diagramId share,
            permissionLevel share, sharedByUserId share))
          <$> Listing.sharesWith st u
    ↔ ∃ s, s ∈ diagram_shares st ∧ sharedWithUserId s = u
           ∧ e = ((λ d, (diagramId s, d)) <$> diagrams st !! diagramId s,
                  permissionLevel s, sharedByUserId s)).
  { intros e. rewrite list_elem_of_fmap. unfold Listing.sharesWith. split.
    - intros (s & -> & Hs). apply list_elem_of_In, filter_In in Hs as [Hs Hu].
      apply bool_decide_eq_true in Hu. exists s.
      split; [by apply list_elem_of_In | done].
    - intros (s & Hs & Hu & ->). exists s. split; [done|].
      apply list_elem_of_In, filter_In.
      split; [by apply list_elem_of_In | by apply bool_decide_eq_true]. }
  split.
  - intros e (s & Hs & Hu & ->)%Hent.
    destruct (Href s Hs) as [d Hd]. exists s, d. rewrite Hd. done.
  - intros id d lvl. split.
    + intros (by_ & (s & Hs & Hu & E)%Hent).
      destruct (diagrams st !! diagramId s) as [d0|] eqn:Hd0;
        [|simpl in E; discriminate E].
      simpl in E. injection E as E1 E2 E3 E4. subst id d lvl by_ u.
      split; [done|].
      destruct (findOne (share_of (diagramId s) (sharedWithUserId s))
                  (diagram_shares st)) as [s0|] eqn:E0.
      * exists s0. split; [done|].
        apply find_some_elem in E0 as [Hin0 Hp0]. apply share_of_true in Hp0.
        assert (s0 = s); [|by subst].
        unfold shares_unique in Hnd.
        apply (unique_key_inj (diagram_shares st)); [done..|].
        by rewrite Hp0.
      * unfold findOne in E0. rewrite find_none_iff in E0.
        specialize (E0 s Hs).
        assert (share_of (diagramId s) (sharedWithUserId s) s = true)
          by (by apply share_of_true). congruence.
    + intros (Hd & s & Hs & ->). exists (sharedByUserId s). apply Hent.
      apply find_some_elem in Hs as [Hin Hp]. apply share_of_true in Hp.
      injection Hp as Hi Hu. exists s. split; [done|]. split; [done|].
      by rewrite Hi, Hd.
Qed.

Lemma getSharedWithMe_entries_witness :
  ∃ l, Listing.getSharedWithMe Sample.st_editor (Some "bob")
       = (Sample.st_editor, Listing.SharedWithMe l)
       ∧ length l = 1%nat.
Proof.
  destruct (getSharedWithMe_entries Sample.st_editor "bob"
              reachable_st_editor) as (l & Hl & Hlen & _).
  exists l. split; [exact Hl|]. rewrite Hlen. vm_compute. reflexivity.
Defined.

(** ** Routing *)

Lemma literal_shadowed_by_param s n path ps :
  Router.matchPath [Router.Lit s] path = Some ps →
  ∃ x, path = [x] ∧ Router.matchPath [Router.Param n] path = Some [(n, x)].
Proof.
  destruct path as [|x [|y path]]; simpl; [done| |].
  - intros _. by exists x.
  - destruct (String.eqb _ _); done.
Qed.

(** X17. No request is routed to [getSharedWithMe]: [/shared-with-me] is
    registered after [/:id], so a GET with one path segment, this one
    included, is served by the [getById] route with the segment as
    [id]. *)
Theorem getSharedWithMe_is_shadowed m path :
  (∀ ps, Router.dispatch m path ≠ Some (Router.HgetSharedWithMe, ps))
  ∧ (∀ x, Router.dispatch Router.GET [x]
          = Some (Router.HgetById, [("id", x)])).
Proof.
  split; [|intros x; reflexivity].
  intros ps. unfold Router.dispatch, Router.routes.
  destruct m; cbn -[Router.matchPath]; repeat case_match; try congruence.
  all: match goal with
       | H : Router.matchPath [Router.Lit _] _ = Some _ |- _ =>
           apply (literal_shadowed_by_param _ "id") in H as (x & -> & H)
       end; congruence.
Qed.
